(** * The request broker of the credential gateway

    A shallow embedding of [src/requests/requests.service.ts]
    ([RequestsService]) and of the disclosure endpoint of the verify
    controller ([VerifyController.handleCredentialVerifyDisclosure]),
    together with the properties the specification states about them.

    Conventions of the embedding:
    - the four typeorm repositories are tables, i.e. lists of rows in
      insertion order; [findOne] returns the first row that satisfies the
      where-clause;
    - an [async] method that can throw is a computation in the monad [M]:
      it takes the service state and returns an [Outcome] together with the
      new state (the logger writes even when the method throws);
    - the two inputs the service reads from its environment are explicit:
      the clock ([clockTimestamp], seconds since the epoch, read by
      [jsonwebtoken.verify]) and the uuid the database generates for a row
      inserted by [save] ([generatedUuid]);
    - the [jsonwebtoken] package is an external library: tokens are modelled
      symbolically (a payload and the key the signature was made with), and
      [decode] / [verify] follow the library's documented checks. *)

From Stdlib Require Import String Ascii List ZArith Bool Lia.
Import ListNotations.
Local Open Scope string_scope.
Local Open Scope Z_scope.

(** ** JavaScript helpers *)

(** [String.prototype.split] with a one-character separator: the list of
    ALL segments between separators (never empty: [""] splits to [[""]]). *)
Fixpoint split (sep : ascii) (s : string) : list string :=
  match s with
  | EmptyString => [EmptyString]
  | String c rest =>
      if Ascii.eqb c sep then EmptyString :: split sep rest
      else match split sep rest with
           | [] => [String c EmptyString]
           | seg :: segs => String c seg :: segs
           end
  end.

(** [!x] for a value that is a string or [undefined] ([None]). *)
Definition falsy (x : option string) : bool :=
  match x with
  | None => true
  | Some EmptyString => true
  | Some (String _ _) => false
  end.

(** [x === c] for a string-or-undefined [x] and a string constant [c]. *)
Definition strictEq (x : option string) (c : string) : bool :=
  match x with
  | None => false
  | Some s => String.eqb s c
  end.

(** Whether a character occurs in a string. *)
Fixpoint occurs (c : ascii) (s : string) : bool :=
  match s with
  | EmptyString => false
  | String d rest => Ascii.eqb d c || occurs c rest
  end.

(** An opaque JSON value (the [data] of an issue request, a request body,
    the result data of a connector). *)
#[local] Set Warnings "-register-all".
Inductive Json : Type :=
| JNull
| JBool (b : bool)
| JNumber (z : Z)
| JString (s : string)
| JArray (items : list Json)
| JObject (members : list (string * Json)).

(** ** Entities *)

Module Organization.
Record t : Type := mk { uuid : string; sharedSecret : string }.

(** Entity identity, as a where-clause [{ organization: requestor }]
    compares it. *)
Definition eqb (a b : t) : bool :=
  String.eqb (uuid a) (uuid b) && String.eqb (sharedSecret a) (sharedSecret b).
End Organization.

Module CredentialType.
Record t : Type := mk {
  organization : Organization.t;
  type : string;
  jolocomType : option string
}.
End CredentialType.

Module CredentialVerifyRequest.
Record t : Type := mk {
  uuid : string;
  requestor : Organization.t;
  type : CredentialType.t;
  callbackUrl : string
}.

(** Modelled from the spec: the entity declaration is not among the
    sources; the static [requestType] is the fixed constant of the kind,
    ["verify"]. *)
Definition requestType : string := "verify".

(** Modelled from the spec: the derived [requestId] getter of the entity,
    ["<requestType>:<uuid>"]. *)
Definition requestId (r : t) : string := requestType ++ ":" ++ uuid r.
End CredentialVerifyRequest.

Module CredentialIssueRequest.
Record t : Type := mk {
  uuid : string;
  requestor : Organization.t;
  type : CredentialType.t;
  callbackUrl : string;
  data : option Json
}.

(** Modelled from the spec: the entity declaration is not among the
    sources; the static [requestType] is the fixed constant of the kind,
    ["issue"]. *)
Definition requestType : string := "issue".

(** Modelled from the spec: the derived [requestId] getter of the entity,
    ["<requestType>:<uuid>"]. *)
Definition requestId (r : t) : string := requestType ++ ":" ++ uuid r.
End CredentialIssueRequest.

(** ** Request tokens ([jsonwebtoken]) *)

(** The claims of a request token: the registered claims the library reads
    ([iss], [iat], [nbf], [exp]; [None] when absent) and the request data
    ([CredentialVerifyRequestData] / [CredentialIssueRequestData]; the
    service casts the verified payload to that shape without validation, the
    model takes payloads of that shape). *)
Module Payload.
Record t : Type := mk {
  iss : option string;
  iat : option Z;
  nbf : option Z;
  exp : option Z;
  type : string;
  callbackUrl : string;
  data : option Json
}.
End Payload.

(** A JSON value that is not an object. *)
Inductive NonObject : Type :=
| NNull
| NBool (b : bool)
| NNumber (z : Z)
| NString (s : string)
| NArray (items : list Json).

(** The payload of a token: text that is not JSON (what signing a plain
    string gives), the JSON text of a value that is not an object, or a
    JSON object (the claims). *)
Inductive JwtPayload : Type :=
| PayloadString (s : string)
| PayloadValue (v : NonObject)
| PayloadObject (p : Payload.t).

(** A token string: either text that is not a compact serialisation, or the
    serialisation of a payload with a signature made with [key]. *)
Inductive Jwt : Type :=
| Malformed (raw : string)
| Compact (payload : JwtPayload) (key : string).

(** Everything the modelled code throws: the two plain [Error]s of the
    service (with what their message prints), the [SyntaxError] of
    [JSON.parse] on a payload text that is not JSON, typeorm's
    [EntityNotFoundError], the three errors of [jsonwebtoken], the service's
    [InvalidRequestJWT], and whatever a connector throws. *)
Inductive Exception : Type :=
| CouldNotDecodeIssuer (decoded : option JwtPayload)
| StringReturned (request : JwtPayload)
| SyntaxError (text : string)
| EntityNotFoundError
| JsonWebTokenError (message : string)
| NotBeforeError (message : string)
| TokenExpiredError (message : string)
| InvalidRequestJWT (message : string)
| ConnectorError (message : string).

Inductive Outcome (A : Type) : Type :=
| Returned (a : A)
| Threw (e : Exception).
Arguments Returned {A} a.
Arguments Threw {A} e.

(** Modelled from the spec: [decode] of the external [jsonwebtoken] package
    (the specification's [decodeIssuerHint] parsing step), called as
    [decode(jwt, { json: true })]: no check of the signature. It returns
    [null] ([None]) when the text is not a token, and otherwise
    [JSON.parse] of the payload text: that throws a [SyntaxError] when the
    text is not JSON, and gives [null] for the JSON text [null]. *)
Definition decode (jwt : Jwt) : Outcome (option JwtPayload) :=
  match jwt with
  | Malformed _ => Returned None
  | Compact (PayloadString s) _ => Threw (SyntaxError s)
  | Compact (PayloadValue NNull) _ => Returned None
  | Compact payload _ => Returned (Some payload)
  end.

(** Modelled from the spec: how the library reads a [maxAge] given as a
    string (the specification fixes it at 300 seconds, the service passes
    ['300s']): decimal digits followed by a unit; the result is in
    seconds. *)
Definition isDigit (c : ascii) : bool :=
  let n := Z.of_nat (nat_of_ascii c) in (48 <=? n) && (n <=? 57).

Fixpoint digits (s : string) (acc : Z) : Z * string :=
  match s with
  | String c rest =>
      if isDigit c
      then digits rest (10 * acc + (Z.of_nat (nat_of_ascii c) - 48))
      else (acc, s)
  | EmptyString => (acc, s)
  end.

Definition seconds (span : string) : option Z :=
  match span with
  | EmptyString => None
  | String c _ =>
      if isDigit c then
        let (n, unit) := digits span 0 in
        if String.eqb unit "s" then Some n
        else if String.eqb unit "m" then Some (60 * n)
        else if String.eqb unit "h" then Some (3600 * n)
        else if String.eqb unit "d" then Some (86400 * n)
        else None
      else None
  end.

Definition timespan (span : string) (iat : Z) : option Z :=
  match seconds span with
  | Some s => Some (iat + s)
  | None => None
  end.

(** Modelled from the spec: [verify] of the external [jsonwebtoken] package
    (the specification's [verifyAndExtract]: it verifies the signature with
    the given secret and rejects tokens older than [maxAge]), called as
    [verify(jwt, secret, { maxAge })] at clock time [clockTimestamp]. The
    checks are in the library's order: the token parses, a secret is given,
    the signature was made with [secret], [nbf] is not in the future, [exp]
    is not reached, and (because [maxAge] is set) [iat] is present and
    [clockTimestamp] is below [iat + maxAge]. *)
Definition verify (clockTimestamp : Z) (jwt : Jwt) (secret : string)
    (maxAge : string) : Outcome JwtPayload :=
  match jwt with
  | Malformed _ => Threw (JsonWebTokenError "jwt malformed")
  | Compact payload key =>
      if String.eqb secret "" then
        Threw (JsonWebTokenError "secret or public key must be provided")
      else if negb (String.eqb key secret) then
        Threw (JsonWebTokenError "invalid signature")
      else
        match payload with
        | PayloadString _ | PayloadValue _ =>
            (* a payload that is no object carries no [iat] *)
            Threw (JsonWebTokenError "iat required when maxAge is specified")
        | PayloadObject p =>
            if match Payload.nbf p with
               | Some nbf => clockTimestamp <? nbf
               | None => false
               end
            then Threw (NotBeforeError "jwt not active")
            else if match Payload.exp p with
                    | Some exp => exp <=? clockTimestamp
                    | None => false
                    end
            then Threw (TokenExpiredError "jwt expired")
            else
              match Payload.iat p with
              | None =>
                  Threw (JsonWebTokenError "iat required when maxAge is specified")
              | Some iat =>
                  match timespan maxAge iat with
                  | None => Threw (JsonWebTokenError "maxAge should be a timespan")
                  | Some maxAgeTimestamp =>
                      if maxAgeTimestamp <=? clockTimestamp
                      then Threw (TokenExpiredError "maxAge exceeded")
                      else Returned payload
                  end
              end
        end
  end.

(** ** The service state and its monad *)

Record State : Type := mkState {
  organizationsRepository : list Organization.t;
  issueRequestsRepository : list CredentialIssueRequest.t;
  verifyRequestsRepository : list CredentialVerifyRequest.t;
  typesRepository : list CredentialType.t;
  (** the errors [this.logger.error] has been called with, oldest first *)
  logger : list Exception
}.

Definition M (A : Type) : Type := State -> Outcome A * State.

Definition ret {A} (a : A) : M A := fun st => (Returned a, st).

Definition throw {A} (e : Exception) : M A := fun st => (Threw e, st).

Definition bind {A B} (m : M A) (k : A -> M B) : M B :=
  fun st =>
    match m st with
    | (Returned a, st') => k a st'
    | (Threw e, st') => (Threw e, st')
    end.

(** [try { body } catch (e) { handler e }] *)
Definition tryCatch {A} (body : M A) (handler : Exception -> M A) : M A :=
  fun st =>
    match body st with
    | (Returned a, st') => (Returned a, st')
    | (Threw e, st') => handler e st'
    end.

(** Lifting of a synchronous call that may throw. *)
Definition lift {A} (o : Outcome A) : M A := fun st => (o, st).

Notation "x <- m ;; k" := (bind m (fun x => k))
  (at level 61, m at next level, right associativity).
Notation "m ;;; k" := (bind m (fun _ => k))
  (at level 61, right associativity).

(** *** typeorm repositories *)

Definition findOne {A} (where_ : A -> bool) (rows : list A) : option A :=
  find where_ rows.

Definition findOneOrFail {A} (table : State -> list A) (where_ : A -> bool)
    : M A :=
  fun st =>
    match findOne where_ (table st) with
    | Some row => (Returned row, st)
    | None => (Threw EntityNotFoundError, st)
    end.

Definition loggerError (e : Exception) : M unit :=
  fun st =>
    (Returned tt,
     mkState (organizationsRepository st) (issueRequestsRepository st)
       (verifyRequestsRepository st) (typesRepository st)
       (logger st ++ [e])).

(** [verifyRequestsRepository.save(r)] of a new entity: the database
    generates the [uuid] column, the row is inserted, and the entity is
    returned with its [uuid]. *)
Definition saveVerifyRequest (generatedUuid : string)
    (r : CredentialVerifyRequest.t) : M CredentialVerifyRequest.t :=
  fun st =>
    let row :=
      CredentialVerifyRequest.mk generatedUuid
        (CredentialVerifyRequest.requestor r) (CredentialVerifyRequest.type r)
        (CredentialVerifyRequest.callbackUrl r) in
    (Returned row,
     mkState (organizationsRepository st) (issueRequestsRepository st)
       (verifyRequestsRepository st ++ [row]) (typesRepository st)
       (logger st)).

Definition saveIssueRequest (generatedUuid : string)
    (r : CredentialIssueRequest.t) : M CredentialIssueRequest.t :=
  fun st =>
    let row :=
      CredentialIssueRequest.mk generatedUuid
        (CredentialIssueRequest.requestor r) (CredentialIssueRequest.type r)
        (CredentialIssueRequest.callbackUrl r) (CredentialIssueRequest.data r) in
    (Returned row,
     mkState (organizationsRepository st) (issueRequestsRepository st ++ [row])
       (verifyRequestsRepository st) (typesRepository st)
       (logger st)).

(** ** RequestsService *)

Definition JWT_MAX_AGE : string := "300s".

Definition findVerifyRequestByIdentifier (uuid : string) (st : State)
    : option CredentialVerifyRequest.t :=
  findOne (fun r => String.eqb (CredentialVerifyRequest.uuid r) uuid)
    (verifyRequestsRepository st).

Definition findIssueRequestByIdentifier (uuid : string) (st : State)
    : option CredentialIssueRequest.t :=
  findOne (fun r => String.eqb (CredentialIssueRequest.uuid r) uuid)
    (issueRequestsRepository st).

Definition findVerifyRequestByRequestId (requestId : string) (st : State)
    : option CredentialVerifyRequest.t :=
  let parts := split ":" requestId in
  let type := nth_error parts 0 in
  let uuid := nth_error parts 1 in
  if negb (strictEq type CredentialVerifyRequest.requestType) || falsy uuid
  then None
  else
    match uuid with
    | Some uuid => findVerifyRequestByIdentifier uuid st
    | None => None
    end.

Definition findIssueRequestByRequestId (requestId : string) (st : State)
    : option CredentialIssueRequest.t :=
  let parts := split ":" requestId in
  let type := nth_error parts 0 in
  let uuid := nth_error parts 1 in
  if negb (strictEq type CredentialIssueRequest.requestType) || falsy uuid
  then None
  else
    match uuid with
    | Some uuid => findIssueRequestByIdentifier uuid st
    | None => None
    end.

(** What [findRequestByRequestId] resolves to: a record of either store. *)
Inductive Request : Type :=
| VerifyRequest (r : CredentialVerifyRequest.t)
| IssueRequest (r : CredentialIssueRequest.t).

Definition findRequestByRequestId (requestId : string) (st : State)
    : option Request :=
  let parts := split ":" requestId in
  let type := nth_error parts 0 in
  let uuid := nth_error parts 1 in
  if falsy type || falsy uuid then None
  else
    match uuid with
    | None => None
    | Some uuid =>
        if strictEq type CredentialVerifyRequest.requestType
        then option_map VerifyRequest (findVerifyRequestByIdentifier uuid st)
        else if strictEq type CredentialIssueRequest.requestType
        then option_map IssueRequest (findIssueRequestByIdentifier uuid st)
        else None
    end.

(** The where-clauses of the service: [{ uuid: decoded.iss }] on
    organizations and [{ organization: requestor, type: request.type }] on
    credential types. *)
Definition byUuid (iss : string) (o : Organization.t) : bool :=
  String.eqb (Organization.uuid o) iss.

Definition byOwnerAndName (requestor : Organization.t) (type : string)
    (t : CredentialType.t) : bool :=
  Organization.eqb (CredentialType.organization t) requestor
  && String.eqb (CredentialType.type t) type.

(** The verified request data and the organization that signed it. *)
Record Decoded : Type := mkDecoded {
  request : Payload.t;
  requestor : Organization.t
}.

Definition decodeAndVerifyJwt (clockTimestamp : Z) (jwt : Jwt) : M Decoded :=
  tryCatch
    ((* First decode to extract issuer *)
     decoded <- lift (decode jwt) ;;
     (* Check if issuer is set *)
     match decoded with
     | Some (PayloadObject claims) =>
         if falsy (Payload.iss claims) then throw (CouldNotDecodeIssuer decoded)
         else
           match Payload.iss claims with
           | None => throw (CouldNotDecodeIssuer decoded)
           | Some iss =>
               requestor <- findOneOrFail organizationsRepository
                 (byUuid iss) ;;
               (* Verify that jwt is signed by specified issuer *)
               request <- lift (verify clockTimestamp jwt
                                  (Organization.sharedSecret requestor)
                                  JWT_MAX_AGE) ;;
               match request with
               | PayloadObject request => ret (mkDecoded request requestor)
               | _ => throw (StringReturned request)
               end
           end
     | _ => throw (CouldNotDecodeIssuer decoded)
     end)
    (fun e =>
       loggerError e ;;;
       throw (InvalidRequestJWT "Could not decode request JWT")).

Definition findCredentialType (requestor : Organization.t) (type : string)
    : M CredentialType.t :=
  findOneOrFail typesRepository (byOwnerAndName requestor type).

Definition decodeVerifyRequestToken (clockTimestamp : Z)
    (generatedUuid : string) (jwt : Jwt) : M CredentialVerifyRequest.t :=
  d <- decodeAndVerifyJwt clockTimestamp jwt ;;
  type <- findCredentialType (requestor d) (Payload.type (request d)) ;;
  let verifyRequest :=
    CredentialVerifyRequest.mk "" (requestor d) type
      (Payload.callbackUrl (request d)) in
  saveVerifyRequest generatedUuid verifyRequest.

Definition decodeIssueRequestToken (clockTimestamp : Z)
    (generatedUuid : string) (jwt : Jwt) : M CredentialIssueRequest.t :=
  d <- decodeAndVerifyJwt clockTimestamp jwt ;;
  type <- findCredentialType (requestor d) (Payload.type (request d)) ;;
  let issueRequest :=
    CredentialIssueRequest.mk "" (requestor d) type
      (Payload.callbackUrl (request d)) (Payload.data (request d)) in
  saveIssueRequest generatedUuid issueRequest.

(** ** VerifyController: the disclosure endpoint *)

(** Modelled from the spec: the [ResponseStatus] enum is not among the
    sources; [success] is the member the controller uses, [failure] stands
    for the failure status the specification speaks of. *)
Inductive ResponseStatus : Type := success | failure.

(** The capability of a connector that the endpoint uses. *)
Module ConnectorService.
Record t : Type := mk {
  name : string;
  handleVerifyCredentialDisclosure :
    CredentialVerifyRequest.t -> Json -> Outcome Json
}.
End ConnectorService.

(** One call of [gateway.sendRedirectResponse(requestId, status, url)]. *)
Record RedirectResponse : Type := mkRedirectResponse {
  toRequestId : string;
  status : ResponseStatus;
  redirectUrl : string
}.

(** The gateway, seen from the controller: the calls made to it, oldest
    first. *)
Definition Gateway : Type := list RedirectResponse.

Section VerifyController.

(** [requestsService.encodeVerifyRequestResponse]: the method is not among
    the sources, the endpoint is verified for any implementation of it. *)
Variable encodeVerifyRequestResponse :
  CredentialVerifyRequest.t -> ResponseStatus -> string -> Json -> string.

Definition sendRedirectResponse (requestId : string) (st : ResponseStatus)
    (url : string) (gateway : Gateway) : Gateway :=
  (gateway ++ [mkRedirectResponse requestId st url])%list.

Definition handleCredentialVerifyDisclosure
    (connectorService : ConnectorService.t)
    (verifyRequest : CredentialVerifyRequest.t) (body : Json)
    (gateway : Gateway) : Outcome unit * Gateway :=
  match ConnectorService.handleVerifyCredentialDisclosure connectorService
          verifyRequest body with
  | Threw e => (Threw e, gateway)
  | Returned data =>
      let responseToken :=
        encodeVerifyRequestResponse verifyRequest success
          (ConnectorService.name connectorService) data in
      (Returned tt,
       sendRedirectResponse (CredentialVerifyRequest.requestId verifyRequest)
         success
         (CredentialVerifyRequest.callbackUrl verifyRequest ++ responseToken)
         gateway)
  end.

End VerifyController.

(** * Properties *)

(** ** Fixtures used to evaluate the model on concrete inputs *)

Module Fixture.
Definition orgA : Organization.t := Organization.mk "org-a" "secret-a".
Definition orgB : Organization.t := Organization.mk "org-b" "secret-b".
(** an organization that was given the same secret as [orgA] *)
Definition orgC : Organization.t := Organization.mk "org-c" "secret-a".

Definition passportA : CredentialType.t :=
  CredentialType.mk orgA "passport" None.
Definition passportB : CredentialType.t :=
  CredentialType.mk orgB "passport" None.
Definition passportC : CredentialType.t :=
  CredentialType.mk orgC "passport" (Some "jolocom-passport").

Definition st0 : State :=
  mkState [orgA; orgB; orgC] [] [] [passportA; passportB; passportC] [].

Definition claims (iss : string) (iat : Z) : Payload.t :=
  Payload.mk (Some iss) (Some iat) None None "passport"
    "https://example.com/cb?token=" (Some (JObject [("name", JString "Alice")])).

Definition u1 : string := "123e4567-e89b-12d3-a456-426614174000".

(** [st0] after [orgB]'s verify request was accepted with uuid [u1]. *)
Definition verifyRow1 : CredentialVerifyRequest.t :=
  CredentialVerifyRequest.mk u1 orgB passportB "https://example.com/cb?token=".

Definition st1 : State :=
  mkState [orgA; orgB; orgC] [] [verifyRow1]
    [passportA; passportB; passportC] [].

(** A stand-in for the outcome-token encoder. *)
Definition encode (r : CredentialVerifyRequest.t) (s : ResponseStatus)
    (connectorName : string) (data : Json) : string :=
  match s with
  | success => "ok." ++ connectorName ++ "." ++ CredentialVerifyRequest.uuid r
  | failure => "ko." ++ connectorName ++ "." ++ CredentialVerifyRequest.uuid r
  end.

(** A connector whose disclosure step succeeds, and one whose step
    fails. *)
Definition demoConnector : ConnectorService.t :=
  ConnectorService.mk "demo"
    (fun _ _ => Returned (JObject [("name", JString "Alice")])).

Definition failingConnector : ConnectorService.t :=
  ConnectorService.mk "demo"
    (fun _ _ => Threw (ConnectorError "disclosure proof rejected")).
End Fixture.

(** ** The composite identifier, in the specification's words *)

(** The text before the first separator (the whole text when there is
    none). *)
Fixpoint before (sep : ascii) (s : string) : string :=
  match s with
  | EmptyString => EmptyString
  | String c rest =>
      if Ascii.eqb c sep then EmptyString else String c (before sep rest)
  end.

(** Everything after the first separator ([None] when there is none). *)
Fixpoint after (sep : ascii) (s : string) : option string :=
  match s with
  | EmptyString => None
  | String c rest => if Ascii.eqb c sep then Some rest else after sep rest
  end.

(** Dispatch of a type tag and an identifier to the matching store. *)
Definition lookupByTag (tag uuid : string) (st : State) : option Request :=
  if String.eqb uuid "" then None
  else if String.eqb tag CredentialVerifyRequest.requestType
  then option_map VerifyRequest (findVerifyRequestByIdentifier uuid st)
  else if String.eqb tag CredentialIssueRequest.requestType
  then option_map IssueRequest (findIssueRequestByIdentifier uuid st)
  else None.

(** [resolveByRequestId] as the specification words it: the identifier is
    split on the first delimiter, the uuid segment is everything after
    it. *)
Definition resolveByRequestId_spec (requestId : string) (st : State)
    : option Request :=
  match after ":" requestId with
  | None => None
  | Some uuid => lookupByTag (before ":" requestId) uuid st
  end.

(** The stores of request records. *)
Definition requestStores (st : State)
    : list CredentialVerifyRequest.t * list CredentialIssueRequest.t :=
  (verifyRequestsRepository st, issueRequestsRepository st).

(** The time checks of [verify] other than [maxAge]: [nbf] and [exp]. *)
Definition otherTimeChecksPass (clockTimestamp : Z) (p : Payload.t) : bool :=
  negb match Payload.nbf p with
       | Some nbf => clockTimestamp <? nbf
       | None => false
       end
  && negb match Payload.exp p with
          | Some exp => exp <=? clockTimestamp
          | None => false
          end.

(** The token an organization makes by signing claims with its shared
    secret. *)
Definition signedBy (org : Organization.t) (claims : Payload.t) : Jwt :=
  Compact (PayloadObject claims) (Organization.sharedSecret org).

(** The one error [decodeAndVerifyJwt] throws. *)
Definition genericError : Exception :=
  InvalidRequestJWT "Could not decode request JWT".

(** ** Notions used to state what the service keeps *)

(** The state after [this.logger.error] was called once, with [cause]. *)
Definition logged (st : State) (cause : Exception) : State :=
  mkState (organizationsRepository st) (issueRequestsRepository st)
    (verifyRequestsRepository st) (typesRepository st)
    (logger st ++ [cause]).

(** A uuid that can be addressed through a composite identifier: not empty
    and free of the delimiter. *)
Definition addressable (uuid : string) : bool :=
  negb (String.eqb uuid "") && negb (occurs ":" uuid).

(** Referential consistency of the request stores: the type of every record
    is owned by the record's requestor, the requestor is a row of the
    organizations table and the type a row of the types table. *)
Definition consistentVerifyRequest (st : State)
    (r : CredentialVerifyRequest.t) : Prop :=
  CredentialType.organization (CredentialVerifyRequest.type r)
  = CredentialVerifyRequest.requestor r
  /\ In (CredentialVerifyRequest.requestor r) (organizationsRepository st)
  /\ In (CredentialVerifyRequest.type r) (typesRepository st).

Definition consistentIssueRequest (st : State)
    (r : CredentialIssueRequest.t) : Prop :=
  CredentialType.organization (CredentialIssueRequest.type r)
  = CredentialIssueRequest.requestor r
  /\ In (CredentialIssueRequest.requestor r) (organizationsRepository st)
  /\ In (CredentialIssueRequest.type r) (typesRepository st).

Definition storesConsistent (st : State) : Prop :=
  Forall (consistentVerifyRequest st) (verifyRequestsRepository st)
  /\ Forall (consistentIssueRequest st) (issueRequestsRepository st).

(** No two records of a store share a uuid. *)
Definition uniqueVerifyUuids (st : State) : Prop :=
  NoDup (map CredentialVerifyRequest.uuid (verifyRequestsRepository st)).

Definition uniqueIssueUuids (st : State) : Prop :=
  NoDup (map CredentialIssueRequest.uuid (issueRequestsRepository st)).

(** * Lemmas on the helpers *)

Lemma split_nonempty sep s : split sep s <> [].
Proof.
  destruct s as [|c rest]; simpl; [discriminate|].
  destruct (Ascii.eqb c sep); [discriminate|].
  destruct (split sep rest); discriminate.
Qed.

Lemma split_first sep s : nth_error (split sep s) 0 = Some (before sep s).
Proof.
  induction s as [|c rest IH]; simpl; [reflexivity|].
  destruct (Ascii.eqb c sep); simpl; [reflexivity|].
  destruct (split sep rest) as [|seg segs]; simpl in *; congruence.
Qed.

Lemma split_second sep s :
  nth_error (split sep s) 1 = option_map (before sep) (after sep s).
Proof.
  induction s as [|c rest IH]; simpl; [reflexivity|].
  destruct (Ascii.eqb c sep); simpl.
  - apply split_first.
  - pose proof (split_nonempty sep rest) as Hne.
    destruct (split sep rest) as [|seg segs]; [contradiction|].
    simpl in *. exact IH.
Qed.

Lemma before_no_sep sep s : occurs sep s = false -> before sep s = s.
Proof.
  induction s as [|c rest IH]; simpl; [reflexivity|].
  intros H. apply orb_false_iff in H as [Hc Hrest].
  rewrite Hc, IH; auto.
Qed.

Lemma before_app sep tag rest :
  occurs sep tag = false ->
  before sep (tag ++ String sep rest) = tag.
Proof.
  induction tag as [|c tag IH]; simpl.
  - intros _. now rewrite Ascii.eqb_refl.
  - intros H. apply orb_false_iff in H as [Hc Htag].
    rewrite Hc, IH; auto.
Qed.

Lemma after_app sep tag rest :
  occurs sep tag = false ->
  after sep (tag ++ String sep rest) = Some rest.
Proof.
  induction tag as [|c tag IH]; simpl.
  - intros _. now rewrite Ascii.eqb_refl.
  - intros H. apply orb_false_iff in H as [Hc Htag].
    rewrite Hc. auto.
Qed.

Lemma falsy_Some s : falsy (Some s) = String.eqb s "".
Proof. destruct s; reflexivity. Qed.

Lemma Organization_eqb_eq a b : Organization.eqb a b = true -> a = b.
Proof.
  destruct a, b; unfold Organization.eqb; simpl.
  intros H. apply andb_true_iff in H as [H1 H2].
  apply String.eqb_eq in H1, H2. congruence.
Qed.

Lemma Organization_eqb_refl a : Organization.eqb a a = true.
Proof.
  unfold Organization.eqb. now rewrite !String.eqb_refl.
Qed.

Lemma timespan_JWT_MAX_AGE iat : timespan JWT_MAX_AGE iat = Some (iat + 300).
Proof. reflexivity. Qed.

(** * Lemmas on the service *)

Lemma find_byUuid iss orgs o :
  findOne (byUuid iss) orgs = Some o -> Organization.uuid o = iss /\ In o orgs.
Proof.
  unfold findOne, byUuid. intros H. apply find_some in H as [Hin Heq].
  apply String.eqb_eq in Heq. auto.
Qed.

Lemma find_byOwnerAndName requestor type types t :
  findOne (byOwnerAndName requestor type) types = Some t ->
  CredentialType.organization t = requestor
  /\ CredentialType.type t = type /\ In t types.
Proof.
  unfold findOne, byOwnerAndName. intros H.
  apply find_some in H as [Hin Heq].
  apply andb_true_iff in Heq as [Ho Ht].
  apply Organization_eqb_eq in Ho. apply String.eqb_eq in Ht. auto.
Qed.

(** The catch-all handler of [decodeAndVerifyJwt]. *)
Lemma handler_spec {A} e st :
  (loggerError e ;;; @throw A genericError) st
  = (Threw genericError,
     mkState (organizationsRepository st) (issueRequestsRepository st)
       (verifyRequestsRepository st) (typesRepository st) (logger st ++ [e])).
Proof. reflexivity. Qed.

(** [decodeAndVerifyJwt] step by step: the outcome and the logged cause of
    every path through the try block. *)
Lemma decodeAndVerifyJwt_cases now jwt st :
  decodeAndVerifyJwt now jwt st
  = match decode jwt with
    | Threw e => (Threw genericError, logged st e)
    | Returned (Some (PayloadObject claims)) =>
        match Payload.iss claims with
        | Some (String c rest) =>
            match findOne (byUuid (String c rest)) (organizationsRepository st)
            with
            | None => (Threw genericError, logged st EntityNotFoundError)
            | Some org =>
                match verify now jwt (Organization.sharedSecret org)
                        JWT_MAX_AGE with
                | Returned (PayloadObject request) =>
                    (Returned (mkDecoded request org), st)
                | Returned other =>
                    (Threw genericError, logged st (StringReturned other))
                | Threw e => (Threw genericError, logged st e)
                end
            end
        | _ =>
            (Threw genericError,
             logged st (CouldNotDecodeIssuer (Some (PayloadObject claims))))
        end
    | Returned decoded =>
        (Threw genericError, logged st (CouldNotDecodeIssuer decoded))
    end.
Proof.
  unfold decodeAndVerifyJwt, tryCatch, bind, lift, findOneOrFail.
  destruct (decode jwt) as [[[s | v | claims]|] | e]; try reflexivity.
  destruct (Payload.iss claims) as [[|c rest]|]; try reflexivity.
  cbn [falsy].
  destruct (findOne _ _) as [org|]; try reflexivity.
  destruct (verify now jwt (Organization.sharedSecret org) JWT_MAX_AGE)
    as [[s | v | request] | e]; reflexivity.
Qed.

(** What [decode] returned when it returned claims. *)
Lemma decode_object jwt p :
  decode jwt = Returned (Some (PayloadObject p)) ->
  exists key, jwt = Compact (PayloadObject p) key.
Proof.
  destruct jwt as [raw | [s | [| b | z | s | items] | claims] key];
    try discriminate.
  intros H. inversion H. now exists key.
Qed.

(** [verify] returns the payload it was given, and only if that is an
    object. *)
Lemma verify_returns_object now payload key secret maxAge x :
  verify now (Compact payload key) secret maxAge = Returned x ->
  x = payload /\ exists p, payload = PayloadObject p.
Proof.
  unfold verify.
  repeat match goal with
         | |- context [if ?b then _ else _] => destruct b; try discriminate
         | |- context [match ?y with _ => _ end] =>
             destruct y; try discriminate
         end;
    intros H; inversion H; eauto.
Qed.

(** [decodeAndVerifyJwt] returns exactly when the token carries claims with
    a truthy issuer, the issuer resolves to an organization, and [verify]
    accepts the token under that organization's secret; it changes nothing
    then. *)
Lemma decodeAndVerifyJwt_returned now jwt st d st' :
  decodeAndVerifyJwt now jwt st = (Returned d, st') ->
  st' = st
  /\ exists iss,
       decode jwt = Returned (Some (PayloadObject (request d)))
       /\ Payload.iss (request d) = Some iss
       /\ iss <> ""
       /\ findOne (byUuid iss) (organizationsRepository st) = Some (requestor d)
       /\ verify now jwt (Organization.sharedSecret (requestor d)) JWT_MAX_AGE
          = Returned (PayloadObject (request d)).
Proof.
  rewrite decodeAndVerifyJwt_cases.
  destruct (decode jwt) as [[[s | v | claims]|] | e] eqn:Hdec;
    try discriminate.
  destruct (Payload.iss claims) as [[|c rest]|] eqn:Hiss; try discriminate.
  destruct (findOne _ _) as [org|] eqn:Horg; try discriminate.
  destruct (verify now jwt (Organization.sharedSecret org) JWT_MAX_AGE)
    as [[s | v | claims'] | e] eqn:Hverify; try discriminate.
  intros H. inversion H; subst; clear H. cbn [request requestor].
  apply decode_object in Hdec as [key ->].
  destruct (verify_returns_object _ _ _ _ _ _ Hverify) as [Heq _].
  inversion Heq; subst claims'.
  split; [reflexivity|]. exists (String c rest).
  repeat split; auto. discriminate.
Qed.

(** Every failure of [decodeAndVerifyJwt] is the one generic error; the
    cause goes to the log and nothing else changes. *)
Lemma decodeAndVerifyJwt_threw now jwt st e st' :
  decodeAndVerifyJwt now jwt st = (Threw e, st') ->
  e = genericError
  /\ exists cause,
       st' = mkState (organizationsRepository st) (issueRequestsRepository st)
               (verifyRequestsRepository st) (typesRepository st)
               (logger st ++ [cause]).
Proof.
  rewrite decodeAndVerifyJwt_cases. unfold logged.
  repeat match goal with
         | |- context [match ?y with _ => _ end] => destruct y
         end;
    intros H; inversion H; subst; split; eauto.
Qed.

(** [decodeAndVerifyJwt] returns as soon as its three steps succeed. *)
Lemma decodeAndVerifyJwt_accepts now claims key st org iss :
  Payload.iss claims = Some iss ->
  iss <> "" ->
  findOne (byUuid iss) (organizationsRepository st) = Some org ->
  verify now (Compact (PayloadObject claims) key)
    (Organization.sharedSecret org) JWT_MAX_AGE
  = Returned (PayloadObject claims) ->
  decodeAndVerifyJwt now (Compact (PayloadObject claims) key) st
  = (Returned (mkDecoded claims org), st).
Proof.
  intros Hiss Hne Horg Hverify.
  rewrite decodeAndVerifyJwt_cases. cbn [decode]. rewrite Hiss.
  destruct iss as [|c iss]; [contradiction|].
  rewrite Horg, Hverify. reflexivity.
Qed.

(** A token whose signature was not made with the secret of the
    organization its issuer claim resolves to never passes. *)
Lemma decodeAndVerifyJwt_wrong_key now claims key st org iss :
  Payload.iss claims = Some iss ->
  findOne (byUuid iss) (organizationsRepository st) = Some org ->
  key <> Organization.sharedSecret org ->
  exists st',
    decodeAndVerifyJwt now (Compact (PayloadObject claims) key) st
    = (Threw genericError, st')
    /\ requestStores st' = requestStores st.
Proof.
  intros Hiss Horg Hkey.
  destruct (decodeAndVerifyJwt now (Compact (PayloadObject claims) key) st)
    as [[d | e] st'] eqn:Hrun.
  - exfalso. apply decodeAndVerifyJwt_returned in Hrun
      as (_ & iss' & Hdec & Hiss' & _ & Horg' & Hverify).
    cbn [decode] in Hdec. inversion Hdec as [Hclaims].
    rewrite <- Hclaims in Hiss'. rewrite Hiss in Hiss'.
    inversion Hiss'; subst iss'. rewrite Horg in Horg'.
    inversion Horg' as [Hd]. rewrite <- Hd in Hverify.
    cbn [verify] in Hverify.
    destruct (String.eqb (Organization.sharedSecret org) ""); [discriminate|].
    destruct (String.eqb key (Organization.sharedSecret org)) eqn:Hk.
    + apply String.eqb_eq in Hk. contradiction.
    + discriminate.
  - apply decodeAndVerifyJwt_threw in Hrun as (-> & cause & ->).
    eexists. split; reflexivity.
Qed.

(** What the two accepting operations do after [decodeAndVerifyJwt]. *)
Lemma decodeVerifyRequestToken_returned now u jwt st r st' :
  decodeVerifyRequestToken now u jwt st = (Returned r, st') ->
  exists d t,
    decodeAndVerifyJwt now jwt st = (Returned d, st)
    /\ findOne (byOwnerAndName (requestor d) (Payload.type (request d)))
         (typesRepository st) = Some t
    /\ r = CredentialVerifyRequest.mk u (requestor d) t
             (Payload.callbackUrl (request d))
    /\ st' = mkState (organizationsRepository st) (issueRequestsRepository st)
               (verifyRequestsRepository st ++ [r]) (typesRepository st)
               (logger st).
Proof.
  unfold decodeVerifyRequestToken, bind.
  destruct (decodeAndVerifyJwt now jwt st) as [[d | e] st1] eqn:Hrun;
    [|discriminate].
  destruct (decodeAndVerifyJwt_returned _ _ _ _ _ Hrun) as [-> _].
  unfold findCredentialType, findOneOrFail.
  destruct (findOne _ _) as [t|] eqn:Htype; [|discriminate].
  unfold saveVerifyRequest. simpl. intros H. inversion H; subst.
  exists d, t. auto.
Qed.

Lemma decodeIssueRequestToken_returned now u jwt st r st' :
  decodeIssueRequestToken now u jwt st = (Returned r, st') ->
  exists d t,
    decodeAndVerifyJwt now jwt st = (Returned d, st)
    /\ findOne (byOwnerAndName (requestor d) (Payload.type (request d)))
         (typesRepository st) = Some t
    /\ r = CredentialIssueRequest.mk u (requestor d) t
             (Payload.callbackUrl (request d)) (Payload.data (request d))
    /\ st' = mkState (organizationsRepository st)
               (issueRequestsRepository st ++ [r])
               (verifyRequestsRepository st) (typesRepository st)
               (logger st).
Proof.
  unfold decodeIssueRequestToken, bind.
  destruct (decodeAndVerifyJwt now jwt st) as [[d | e] st1] eqn:Hrun;
    [|discriminate].
  destruct (decodeAndVerifyJwt_returned _ _ _ _ _ Hrun) as [-> _].
  unfold findCredentialType, findOneOrFail.
  destruct (findOne _ _) as [t|] eqn:Htype; [|discriminate].
  unfold saveIssueRequest. simpl. intros H. inversion H; subst.
  exists d, t. auto.
Qed.

Lemma decodeVerifyRequestToken_threw now u jwt st e st' :
  decodeVerifyRequestToken now u jwt st = (Threw e, st') ->
  requestStores st' = requestStores st.
Proof.
  unfold decodeVerifyRequestToken, bind.
  destruct (decodeAndVerifyJwt now jwt st) as [[d | e1] st1] eqn:Hrun.
  - destruct (decodeAndVerifyJwt_returned _ _ _ _ _ Hrun) as [-> _].
    unfold findCredentialType, findOneOrFail.
    destruct (findOne _ _) as [t|]; [discriminate|].
    intros H. now inversion H.
  - apply decodeAndVerifyJwt_threw in Hrun as (_ & cause & ->).
    intros H. now inversion H.
Qed.

Lemma decodeIssueRequestToken_threw now u jwt st e st' :
  decodeIssueRequestToken now u jwt st = (Threw e, st') ->
  requestStores st' = requestStores st.
Proof.
  unfold decodeIssueRequestToken, bind.
  destruct (decodeAndVerifyJwt now jwt st) as [[d | e1] st1] eqn:Hrun.
  - destruct (decodeAndVerifyJwt_returned _ _ _ _ _ Hrun) as [-> _].
    unfold findCredentialType, findOneOrFail.
    destruct (findOne _ _) as [t|]; [discriminate|].
    intros H. now inversion H.
  - apply decodeAndVerifyJwt_threw in Hrun as (_ & cause & ->).
    intros H. now inversion H.
Qed.

(** A failure of the first step is the failure of the whole operation. *)
Lemma decodeVerifyRequestToken_rejects now u jwt st e st' :
  decodeAndVerifyJwt now jwt st = (Threw e, st') ->
  decodeVerifyRequestToken now u jwt st = (Threw e, st').
Proof. intros H. unfold decodeVerifyRequestToken, bind. now rewrite H. Qed.

Lemma decodeIssueRequestToken_rejects now u jwt st e st' :
  decodeAndVerifyJwt now jwt st = (Threw e, st') ->
  decodeIssueRequestToken now u jwt st = (Threw e, st').
Proof. intros H. unfold decodeIssueRequestToken, bind. now rewrite H. Qed.

(** * The claims *)

(** ** Cross-issuer tokens *)

(** C1, as stated, fails when two organizations hold the same shared secret:
    [orgA] and [orgC] are distinct organizations of the Trust Store with the
    secret ["secret-a"]; a token signed with [orgA]'s secret that names
    [orgC] as issuer is accepted, and a request record is created for
    [orgC]. *)
Lemma cross_issuer_shared_secret_accepted :
  In Fixture.orgA (organizationsRepository Fixture.st0)
  /\ In Fixture.orgC (organizationsRepository Fixture.st0)
  /\ Fixture.orgA <> Fixture.orgC
  /\ exists r st',
       decodeVerifyRequestToken 1000 Fixture.u1
         (signedBy Fixture.orgA (Fixture.claims "org-c" 800)) Fixture.st0
       = (Returned r, st')
       /\ CredentialVerifyRequest.requestor r = Fixture.orgC
       /\ verifyRequestsRepository st' = [r].
Proof.
  split; [simpl; auto|]. split; [simpl; auto|]. split; [discriminate|].
  eexists. eexists. split; [vm_compute; reflexivity|]. split; reflexivity.
Qed.

(** C1 (amended): for organizations A and B with different shared secrets,
    B being the organization the Trust Store resolves for the issuer claim,
    a token signed with A's secret that names B as issuer is rejected by
    both accepting operations with the generic invalid-token error, and no
    request record is created. *)
Theorem cross_issuer_token_rejected now u st A B claims :
  findOne (byUuid (Organization.uuid B)) (organizationsRepository st) = Some B ->
  Payload.iss claims = Some (Organization.uuid B) ->
  Organization.sharedSecret A <> Organization.sharedSecret B ->
  (exists st',
     decodeVerifyRequestToken now u (signedBy A claims) st
     = (Threw genericError, st')
     /\ requestStores st' = requestStores st)
  /\ (exists st',
        decodeIssueRequestToken now u (signedBy A claims) st
        = (Threw genericError, st')
        /\ requestStores st' = requestStores st).
Proof.
  intros HB Hiss Hsecret.
  destruct (decodeAndVerifyJwt_wrong_key now claims
              (Organization.sharedSecret A) st B _ Hiss HB Hsecret)
    as (st' & Hrun & Hstores).
  split; exists st'; split; auto.
  - now apply decodeVerifyRequestToken_rejects.
  - now apply decodeIssueRequestToken_rejects.
Qed.

Lemma cross_issuer_token_rejected_witness :
  (exists st',
     decodeVerifyRequestToken 1000 Fixture.u1
       (signedBy Fixture.orgA (Fixture.claims "org-b" 800)) Fixture.st0
     = (Threw genericError, st')
     /\ requestStores st' = requestStores Fixture.st0)
  /\ (exists st',
        decodeIssueRequestToken 1000 Fixture.u1
          (signedBy Fixture.orgA (Fixture.claims "org-b" 800)) Fixture.st0
        = (Threw genericError, st')
        /\ requestStores st' = requestStores Fixture.st0).
Proof.
  apply (cross_issuer_token_rejected 1000 Fixture.u1 Fixture.st0
           Fixture.orgA Fixture.orgB (Fixture.claims "org-b" 800)).
  - reflexivity.
  - reflexivity.
  - discriminate.
Defined.

(** ** Round trip of a signed token *)

(** C2: for an organization the Trust Store resolves, and claims that name
    it as issuer, are signed with its secret, pass [verify] (signature and
    freshness) and declare a credential type the organization owns,
    [decodeVerifyRequestToken] returns a persisted verify request whose
    requestor is the organization, whose callbackUrl is the payload's and
    whose type is the credential type resolved from (organization, declared
    type); [decodeIssueRequestToken] does the same and copies the payload's
    data. *)
Theorem signed_token_roundtrip now u st org claims ct :
  findOne (byUuid (Organization.uuid org)) (organizationsRepository st)
  = Some org ->
  Organization.uuid org <> "" ->
  Payload.iss claims = Some (Organization.uuid org) ->
  verify now (signedBy org claims) (Organization.sharedSecret org) JWT_MAX_AGE
  = Returned (PayloadObject claims) ->
  findOne (byOwnerAndName org (Payload.type claims)) (typesRepository st)
  = Some ct ->
  (exists r st',
     decodeVerifyRequestToken now u (signedBy org claims) st = (Returned r, st')
     /\ verifyRequestsRepository st' = (verifyRequestsRepository st ++ [r])%list
     /\ CredentialVerifyRequest.uuid r = u
     /\ CredentialVerifyRequest.requestor r = org
     /\ CredentialVerifyRequest.callbackUrl r = Payload.callbackUrl claims
     /\ CredentialVerifyRequest.type r = ct)
  /\ (exists r st',
        decodeIssueRequestToken now u (signedBy org claims) st
        = (Returned r, st')
        /\ issueRequestsRepository st' = (issueRequestsRepository st ++ [r])%list
        /\ CredentialIssueRequest.uuid r = u
        /\ CredentialIssueRequest.requestor r = org
        /\ CredentialIssueRequest.callbackUrl r = Payload.callbackUrl claims
        /\ CredentialIssueRequest.type r = ct
        /\ CredentialIssueRequest.data r = Payload.data claims).
Proof.
  intros Horg Hne Hiss Hverify Htype.
  pose proof (decodeAndVerifyJwt_accepts now claims
                (Organization.sharedSecret org) st org _ Hiss Hne Horg Hverify)
    as Hrun.
  unfold signedBy.
  split; eexists; eexists.
  - unfold decodeVerifyRequestToken, bind. rewrite Hrun.
    unfold findCredentialType, findOneOrFail. cbn [requestor request].
    rewrite Htype. unfold saveVerifyRequest.
    split; [reflexivity|]. cbn. repeat split.
  - unfold decodeIssueRequestToken, bind. rewrite Hrun.
    unfold findCredentialType, findOneOrFail. cbn [requestor request].
    rewrite Htype. unfold saveIssueRequest.
    split; [reflexivity|]. cbn. repeat split.
Qed.

Lemma signed_token_roundtrip_witness :
  (exists r st',
     decodeVerifyRequestToken 1000 Fixture.u1
       (signedBy Fixture.orgB (Fixture.claims "org-b" 800)) Fixture.st0
     = (Returned r, st')
     /\ verifyRequestsRepository st'
        = (verifyRequestsRepository Fixture.st0 ++ [r])%list
     /\ CredentialVerifyRequest.uuid r = Fixture.u1
     /\ CredentialVerifyRequest.requestor r = Fixture.orgB
     /\ CredentialVerifyRequest.callbackUrl r
        = Payload.callbackUrl (Fixture.claims "org-b" 800)
     /\ CredentialVerifyRequest.type r = Fixture.passportB)
  /\ (exists r st',
        decodeIssueRequestToken 1000 Fixture.u1
          (signedBy Fixture.orgB (Fixture.claims "org-b" 800)) Fixture.st0
        = (Returned r, st')
        /\ issueRequestsRepository st'
           = (issueRequestsRepository Fixture.st0 ++ [r])%list
        /\ CredentialIssueRequest.uuid r = Fixture.u1
        /\ CredentialIssueRequest.requestor r = Fixture.orgB
        /\ CredentialIssueRequest.callbackUrl r
           = Payload.callbackUrl (Fixture.claims "org-b" 800)
        /\ CredentialIssueRequest.type r = Fixture.passportB
        /\ CredentialIssueRequest.data r
           = Payload.data (Fixture.claims "org-b" 800)).
Proof.
  apply (signed_token_roundtrip 1000 Fixture.u1 Fixture.st0 Fixture.orgB
           (Fixture.claims "org-b" 800) Fixture.passportB).
  - reflexivity.
  - discriminate.
  - reflexivity.
  - reflexivity.
  - reflexivity.
Defined.

(** ** Failure creates nothing *)

(** C3: whenever [decodeVerifyRequestToken] or [decodeIssueRequestToken]
    fails, whatever the cause, both request stores are what they were before
    the call. *)
Theorem failed_accept_creates_nothing now u jwt st e st' :
  decodeVerifyRequestToken now u jwt st = (Threw e, st')
  \/ decodeIssueRequestToken now u jwt st = (Threw e, st') ->
  verifyRequestsRepository st' = verifyRequestsRepository st
  /\ issueRequestsRepository st' = issueRequestsRepository st.
Proof.
  intros [H | H].
  - apply decodeVerifyRequestToken_threw in H. now inversion H.
  - apply decodeIssueRequestToken_threw in H. now inversion H.
Qed.

Lemma failed_accept_creates_nothing_witness :
  verifyRequestsRepository
    (snd (decodeVerifyRequestToken 1000 Fixture.u1 (Malformed "not.a.token")
            Fixture.st0))
  = verifyRequestsRepository Fixture.st0
  /\ issueRequestsRepository
       (snd (decodeVerifyRequestToken 1000 Fixture.u1 (Malformed "not.a.token")
               Fixture.st0))
     = issueRequestsRepository Fixture.st0.
Proof.
  apply (failed_accept_creates_nothing 1000 Fixture.u1
           (Malformed "not.a.token") Fixture.st0 genericError).
  left. reflexivity.
Defined.

(** The causes of failure the specification lists do make the operations
    fail: an unknown credential type is the one failure that is not the
    generic error. *)
Example unknown_credential_type_fails :
  fst (decodeVerifyRequestToken 1000 Fixture.u1
         (signedBy Fixture.orgB
            (Payload.mk (Some "org-b") (Some 800) None None "diploma"
               "https://example.com/cb?token=" None))
         Fixture.st0)
  = Threw EntityNotFoundError.
Proof. reflexivity. Qed.

(** ** The type of a request belongs to its requestor *)

(** C8: every record [decodeVerifyRequestToken] or [decodeIssueRequestToken]
    creates has a credential type owned by the record's requestor. *)
Theorem created_request_type_owned_by_requestor now u jwt st :
  (forall r st',
     decodeVerifyRequestToken now u jwt st = (Returned r, st') ->
     CredentialType.organization (CredentialVerifyRequest.type r)
     = CredentialVerifyRequest.requestor r)
  /\ (forall r st',
        decodeIssueRequestToken now u jwt st = (Returned r, st') ->
        CredentialType.organization (CredentialIssueRequest.type r)
        = CredentialIssueRequest.requestor r).
Proof.
  split; intros r st' H.
  - apply decodeVerifyRequestToken_returned in H as (d & t & _ & Ht & -> & _).
    apply find_byOwnerAndName in Ht as (Ho & _). exact Ho.
  - apply decodeIssueRequestToken_returned in H as (d & t & _ & Ht & -> & _).
    apply find_byOwnerAndName in Ht as (Ho & _). exact Ho.
Qed.

Lemma created_request_type_owned_by_requestor_witness :
  exists r st',
    decodeVerifyRequestToken 1000 Fixture.u1
      (signedBy Fixture.orgB (Fixture.claims "org-b" 800)) Fixture.st0
    = (Returned r, st')
    /\ CredentialType.organization (CredentialVerifyRequest.type r)
       = CredentialVerifyRequest.requestor r.
Proof.
  eexists. eexists. split; [vm_compute; reflexivity|].
  eapply (proj1 (created_request_type_owned_by_requestor 1000 Fixture.u1
                   (signedBy Fixture.orgB (Fixture.claims "org-b" 800))
                   Fixture.st0)).
  vm_compute; reflexivity.
Defined.

(** ** The composite identifier *)

Lemma findOne_none {A} (f : A -> bool) (rows : list A) :
  (forall x, In x rows -> f x = false) -> findOne f rows = None.
Proof.
  unfold findOne. induction rows as [|x rows IH]; simpl; [reflexivity|].
  intros H. rewrite (H x (or_introl eq_refl)). apply IH.
  intros y Hy. apply H. now right.
Qed.

Lemma findOne_last {A} (f : A -> bool) (rows : list A) (x : A) :
  findOne f rows = None -> f x = true -> findOne f (rows ++ [x]) = Some x.
Proof.
  unfold findOne. induction rows as [|y rows IH]; simpl.
  - intros _ ->. reflexivity.
  - destruct (f y); [discriminate|]. exact IH.
Qed.

(** [findRequestByRequestId] in terms of the first delimiter: the tag is
    the text before it, the identifier is the text between it and the next
    delimiter. *)
Lemma findRequestByRequestId_segments requestId st :
  findRequestByRequestId requestId st
  = match after ":" requestId with
    | None => None
    | Some rest => lookupByTag (before ":" requestId) (before ":" rest) st
    end.
Proof.
  unfold findRequestByRequestId. rewrite split_first, split_second.
  destruct (after ":" requestId) as [rest|]; cbn [option_map].
  - unfold lookupByTag. rewrite !falsy_Some. cbn [strictEq].
    destruct (String.eqb (before ":" rest) ""); [now rewrite orb_true_r|].
    rewrite orb_false_r.
    destruct (String.eqb (before ":" requestId) "") eqn:Htag; [|reflexivity].
    apply String.eqb_eq in Htag. rewrite Htag. reflexivity.
  - now rewrite orb_true_r.
Qed.

Lemma findVerifyRequestByRequestId_segments requestId st :
  findVerifyRequestByRequestId requestId st
  = match after ":" requestId with
    | None => None
    | Some rest =>
        if String.eqb (before ":" requestId) CredentialVerifyRequest.requestType
           && negb (String.eqb (before ":" rest) "")
        then findVerifyRequestByIdentifier (before ":" rest) st
        else None
    end.
Proof.
  unfold findVerifyRequestByRequestId. rewrite split_first, split_second.
  destruct (after ":" requestId) as [rest|]; cbn [option_map].
  - rewrite falsy_Some. cbn [strictEq].
    destruct (String.eqb (before ":" requestId) _),
             (String.eqb (before ":" rest) ""); reflexivity.
  - now rewrite orb_true_r.
Qed.

Lemma findIssueRequestByRequestId_segments requestId st :
  findIssueRequestByRequestId requestId st
  = match after ":" requestId with
    | None => None
    | Some rest =>
        if String.eqb (before ":" requestId) CredentialIssueRequest.requestType
           && negb (String.eqb (before ":" rest) "")
        then findIssueRequestByIdentifier (before ":" rest) st
        else None
    end.
Proof.
  unfold findIssueRequestByRequestId. rewrite split_first, split_second.
  destruct (after ":" requestId) as [rest|]; cbn [option_map].
  - rewrite falsy_Some. cbn [strictEq].
    destruct (String.eqb (before ":" requestId) _),
             (String.eqb (before ":" rest) ""); reflexivity.
  - now rewrite orb_true_r.
Qed.

Lemma findRequestByRequestId_tagged tag uuid st :
  occurs ":" tag = false ->
  occurs ":" uuid = false ->
  findRequestByRequestId (tag ++ ":" ++ uuid) st = lookupByTag tag uuid st.
Proof.
  intros Htag Huuid. rewrite findRequestByRequestId_segments.
  change (tag ++ ":" ++ uuid) with (tag ++ String ":" uuid).
  rewrite after_app, before_app, before_no_sep; auto.
Qed.

(** C4: a verify request that [decodeVerifyRequestToken] created with the
    generated uuid [u] (a non-empty identifier without the delimiter, not
    yet used in the verify store) is what [findRequestByRequestId] returns
    for ["verify:" ++ u], which is also the record's [requestId]; and
    ["issue:" ++ u] is not found when no issue request has uuid [u]. *)
Theorem created_verify_request_resolves now u jwt st r st' :
  decodeVerifyRequestToken now u jwt st = (Returned r, st') ->
  u <> "" ->
  occurs ":" u = false ->
  (forall v, In v (verifyRequestsRepository st) ->
             CredentialVerifyRequest.uuid v <> u) ->
  CredentialVerifyRequest.uuid r = u
  /\ CredentialVerifyRequest.requestId r = "verify:" ++ u
  /\ findRequestByRequestId ("verify:" ++ u) st' = Some (VerifyRequest r)
  /\ ((forall i, In i (issueRequestsRepository st') ->
                 CredentialIssueRequest.uuid i <> u) ->
      findRequestByRequestId ("issue:" ++ u) st' = None).
Proof.
  intros Hrun Hne Hcolon Hfresh.
  apply decodeVerifyRequestToken_returned in Hrun as (d & t & _ & _ & Hr & Hst).
  assert (Hu : CredentialVerifyRequest.uuid r = u) by now rewrite Hr.
  assert (Hnonempty : String.eqb u "" = false) by now apply String.eqb_neq.
  split; [exact Hu|]. split.
  { unfold CredentialVerifyRequest.requestId. now rewrite Hu. }
  split.
  - change ("verify:" ++ u) with ("verify" ++ ":" ++ u).
    rewrite findRequestByRequestId_tagged by auto.
    unfold lookupByTag. rewrite Hnonempty. cbn [String.eqb].
    change (String.eqb "verify" CredentialVerifyRequest.requestType) with true.
    cbv iota. unfold findVerifyRequestByIdentifier. rewrite Hst.
    cbn [verifyRequestsRepository].
    rewrite (findOne_last _ _ r); [reflexivity| |].
    + apply findOne_none. intros v Hv. apply String.eqb_neq. now apply Hfresh.
    + rewrite Hu. apply String.eqb_refl.
  - intros Hissue.
    change ("issue:" ++ u) with ("issue" ++ ":" ++ u).
    rewrite findRequestByRequestId_tagged by auto.
    unfold lookupByTag. rewrite Hnonempty.
    change (String.eqb "issue" CredentialVerifyRequest.requestType) with false.
    change (String.eqb "issue" CredentialIssueRequest.requestType) with true.
    cbv iota. unfold findIssueRequestByIdentifier.
    rewrite findOne_none; [reflexivity|].
    intros i Hi. apply String.eqb_neq. now apply Hissue.
Qed.

Lemma created_verify_request_resolves_witness :
  CredentialVerifyRequest.uuid Fixture.verifyRow1 = Fixture.u1
  /\ CredentialVerifyRequest.requestId Fixture.verifyRow1
     = "verify:" ++ Fixture.u1
  /\ findRequestByRequestId ("verify:" ++ Fixture.u1) Fixture.st1
     = Some (VerifyRequest Fixture.verifyRow1)
  /\ ((forall i, In i (issueRequestsRepository Fixture.st1) ->
                 CredentialIssueRequest.uuid i <> Fixture.u1) ->
      findRequestByRequestId ("issue:" ++ Fixture.u1) Fixture.st1 = None).
Proof.
  apply (created_verify_request_resolves 1000 Fixture.u1
           (signedBy Fixture.orgB (Fixture.claims "org-b" 800)) Fixture.st0).
  - vm_compute; reflexivity.
  - discriminate.
  - vm_compute; reflexivity.
  - simpl. intros v [].
Defined.

(** C10: on every input whose tag segment is ["verify"] the combined
    lookup returns what the verify-only lookup returns, and on every input
    whose tag segment is ["issue"] what the issue-only lookup returns. *)
Theorem combined_lookup_agrees_with_tagged_lookups requestId st :
  (before ":" requestId = "verify" ->
   findRequestByRequestId requestId st
   = option_map VerifyRequest (findVerifyRequestByRequestId requestId st))
  /\ (before ":" requestId = "issue" ->
      findRequestByRequestId requestId st
      = option_map IssueRequest (findIssueRequestByRequestId requestId st)).
Proof.
  rewrite findRequestByRequestId_segments,
    findVerifyRequestByRequestId_segments, findIssueRequestByRequestId_segments.
  destruct (after ":" requestId) as [rest|]; [|split; reflexivity].
  unfold lookupByTag.
  split; intros ->; destruct (String.eqb (before ":" rest) ""); reflexivity.
Qed.

Lemma combined_lookup_agrees_with_tagged_lookups_witness :
  findRequestByRequestId ("verify:" ++ Fixture.u1) Fixture.st1
  = option_map VerifyRequest
      (findVerifyRequestByRequestId ("verify:" ++ Fixture.u1) Fixture.st1)
  /\ findRequestByRequestId ("issue:" ++ Fixture.u1) Fixture.st1
     = option_map IssueRequest
         (findIssueRequestByRequestId ("issue:" ++ Fixture.u1) Fixture.st1).
Proof.
  split.
  - apply (proj1 (combined_lookup_agrees_with_tagged_lookups
                    ("verify:" ++ Fixture.u1) Fixture.st1)).
    reflexivity.
  - apply (proj2 (combined_lookup_agrees_with_tagged_lookups
                    ("issue:" ++ Fixture.u1) Fixture.st1)).
    reflexivity.
Defined.

(** C7, as stated, fails on an identifier with a second delimiter:
    everything after the first delimiter of ["verify:<u1>:extra"] is
    ["<u1>:extra"], which no record of the verify store has as uuid, so the
    lookup in the specification's words finds nothing; the code looks up
    [u1] and returns its record. *)
Lemma lookup_ignores_text_after_second_delimiter :
  after ":" ("verify:" ++ Fixture.u1 ++ ":extra")
  = Some (Fixture.u1 ++ ":extra")
  /\ findVerifyRequestByIdentifier (Fixture.u1 ++ ":extra") Fixture.st1 = None
  /\ resolveByRequestId_spec ("verify:" ++ Fixture.u1 ++ ":extra") Fixture.st1
     = None
  /\ findRequestByRequestId ("verify:" ++ Fixture.u1 ++ ":extra") Fixture.st1
     = Some (VerifyRequest Fixture.verifyRow1).
Proof. repeat split. Qed.

(** C7 (amended): [findRequestByRequestId] splits its input on every
    delimiter and uses the first two segments: the tag is the text before
    the first delimiter, the uuid segment is the text between the first and
    the second delimiter (what follows a second delimiter is ignored). It
    always returns (it is a total function): not-found when there is no
    delimiter, when the uuid segment is empty, when the tag is neither
    ["verify"] nor ["issue"], or when the store selected by the tag has no
    record with that uuid; otherwise the record of the store selected by the
    tag. On inputs with at most one delimiter this is the lookup of the
    specification. *)
Theorem findRequestByRequestId_resolves requestId st :
  (after ":" requestId = None -> findRequestByRequestId requestId st = None)
  /\ (forall rest,
        after ":" requestId = Some rest ->
        (before ":" rest = "" -> findRequestByRequestId requestId st = None)
        /\ (before ":" requestId <> "verify" ->
            before ":" requestId <> "issue" ->
            findRequestByRequestId requestId st = None)
        /\ (before ":" rest <> "" ->
            before ":" requestId = "verify" ->
            findRequestByRequestId requestId st
            = option_map VerifyRequest
                (findVerifyRequestByIdentifier (before ":" rest) st))
        /\ (before ":" rest <> "" ->
            before ":" requestId = "issue" ->
            findRequestByRequestId requestId st
            = option_map IssueRequest
                (findIssueRequestByIdentifier (before ":" rest) st))
        /\ (occurs ":" rest = false ->
            findRequestByRequestId requestId st
            = resolveByRequestId_spec requestId st)).
Proof.
  rewrite findRequestByRequestId_segments. unfold resolveByRequestId_spec.
  split; [intros ->; reflexivity|].
  intros rest ->. unfold lookupByTag.
  split; [intros ->; reflexivity|].
  split.
  { intros Hv Hi. apply String.eqb_neq in Hv, Hi.
    unfold CredentialVerifyRequest.requestType,
      CredentialIssueRequest.requestType.
    rewrite Hv, Hi. now destruct (String.eqb (before ":" rest) ""). }
  split.
  { intros Hne ->. apply String.eqb_neq in Hne. now rewrite Hne. }
  split.
  { intros Hne ->. apply String.eqb_neq in Hne. now rewrite Hne. }
  intros Hrest. now rewrite before_no_sep.
Qed.

Lemma findRequestByRequestId_resolves_witness :
  findRequestByRequestId ("verify:" ++ Fixture.u1 ++ ":extra") Fixture.st1
  = option_map VerifyRequest
      (findVerifyRequestByIdentifier Fixture.u1 Fixture.st1).
Proof.
  destruct (findRequestByRequestId_resolves
              ("verify:" ++ Fixture.u1 ++ ":extra") Fixture.st1)
    as [_ Hsome].
  destruct (Hsome (Fixture.u1 ++ ":extra") eq_refl) as (_ & _ & Hverify & _).
  apply Hverify.
  - discriminate.
  - reflexivity.
Defined.

(** The two inputs the specification names are not found. *)
Example bogus_tag_not_found st : findRequestByRequestId "bogus:123" st = None.
Proof. reflexivity. Qed.

Example empty_uuid_not_found st : findRequestByRequestId "verify:" st = None.
Proof. reflexivity. Qed.

(** ** Error kinds of the accepting flow *)

(** C5, as stated, fails: a malformed token, a token without issuer, a token
    of an unknown issuer, a token with a wrong signature and an expired
    token all surface as the same error. *)
Lemma malformed_and_unknown_issuer_not_distinct :
  fst (decodeAndVerifyJwt 1000 (Malformed "not.a.token") Fixture.st0)
  = Threw genericError
  /\ fst (decodeAndVerifyJwt 1000
            (signedBy Fixture.orgA
               (Payload.mk None (Some 800) None None "passport" "cb" None))
            Fixture.st0)
     = Threw genericError
  /\ fst (decodeAndVerifyJwt 1000
            (signedBy Fixture.orgA (Fixture.claims "org-x" 800)) Fixture.st0)
     = Threw genericError
  /\ fst (decodeAndVerifyJwt 1000
            (signedBy Fixture.orgA (Fixture.claims "org-b" 800)) Fixture.st0)
     = Threw genericError
  /\ fst (decodeAndVerifyJwt 1000
            (signedBy Fixture.orgB (Fixture.claims "org-b" 100)) Fixture.st0)
     = Threw genericError.
Proof. repeat split. Qed.

(** What [verify] throws on a token signed with another key than the
    secret it is checked against. *)
Lemma verify_wrong_key now claims key secret maxAge :
  secret <> "" ->
  key <> secret ->
  verify now (Compact (PayloadObject claims) key) secret maxAge
  = Threw (JsonWebTokenError "invalid signature").
Proof.
  intros Hsecret Hkey. unfold verify.
  apply String.eqb_neq in Hsecret, Hkey. now rewrite Hsecret, Hkey.
Qed.

(** What [verify] throws on a token signed with the secret it is checked
    against, whose [nbf] and [exp] checks pass and whose [iat] is known: it
    can only be too old. *)
Lemma verify_threw_for_age now claims secret t cause :
  secret <> "" ->
  otherTimeChecksPass now claims = true ->
  Payload.iat claims = Some t ->
  verify now (Compact (PayloadObject claims) secret) secret JWT_MAX_AGE
  = Threw cause ->
  t + 300 <= now /\ cause = TokenExpiredError "maxAge exceeded".
Proof.
  intros Hsecret Hother Hiat. unfold verify.
  apply String.eqb_neq in Hsecret. rewrite Hsecret, String.eqb_refl.
  cbn [negb]. unfold otherTimeChecksPass in Hother.
  apply andb_true_iff in Hother as [Hnbf Hexp].
  apply negb_true_iff in Hnbf, Hexp. rewrite Hnbf, Hexp, Hiat.
  rewrite timespan_JWT_MAX_AGE.
  destruct (t + 300 <=? now) eqn:Hage; [|discriminate].
  apply Z.leb_le in Hage. intros H. inversion H. auto.
Qed.

(** C5 (amended): every failure of [decodeAndVerifyJwt] (malformed token,
    missing issuer, unknown issuer, invalid signature, expiry) surfaces to
    the caller as the single generic [InvalidRequestJWT] error; the cause is
    only appended to the server log, and nothing else changes. The logged
    cause is the distinct one of the condition that failed: the
    [SyntaxError] of a payload that is not JSON; the service's own error,
    with what was decoded, for a token that cannot be parsed or lacks an
    issuer; [EntityNotFoundError] for an issuer that matches no
    organization; and otherwise the error [verify] threw, which is
    [JsonWebTokenError "invalid signature"] for a token signed with another
    key than the issuer's secret and [TokenExpiredError "maxAge exceeded"]
    for a correctly signed token that fails for its age. *)
Theorem every_token_failure_is_generic now jwt st e st' :
  decodeAndVerifyJwt now jwt st = (Threw e, st') ->
  e = genericError
  /\ (exists cause, logger st' = (logger st ++ [cause])%list)
  /\ organizationsRepository st' = organizationsRepository st
  /\ typesRepository st' = typesRepository st
  /\ requestStores st' = requestStores st
  /\ exists cause,
       st' = logged st cause
       /\ ((exists s key,
              jwt = Compact (PayloadString s) key /\ cause = SyntaxError s)
           \/ (exists decoded,
                 decode jwt = Returned decoded
                 /\ (forall claims,
                       decoded = Some (PayloadObject claims) ->
                       falsy (Payload.iss claims) = true)
                 /\ cause = CouldNotDecodeIssuer decoded)
           \/ (exists claims key iss,
                 jwt = Compact (PayloadObject claims) key
                 /\ Payload.iss claims = Some iss
                 /\ iss <> ""
                 /\ findOne (byUuid iss) (organizationsRepository st) = None
                 /\ cause = EntityNotFoundError)
           \/ (exists claims key iss org,
                 jwt = Compact (PayloadObject claims) key
                 /\ Payload.iss claims = Some iss
                 /\ iss <> ""
                 /\ findOne (byUuid iss) (organizationsRepository st)
                    = Some org
                 /\ verify now jwt (Organization.sharedSecret org) JWT_MAX_AGE
                    = Threw cause
                 /\ (Organization.sharedSecret org <> "" ->
                     key <> Organization.sharedSecret org ->
                     cause = JsonWebTokenError "invalid signature")
                 /\ (Organization.sharedSecret org <> "" ->
                     key = Organization.sharedSecret org ->
                     otherTimeChecksPass now claims = true ->
                     forall t,
                       Payload.iat claims = Some t ->
                       t + 300 <= now
                       /\ cause = TokenExpiredError "maxAge exceeded"))).
Proof.
  intros H.
  pose proof H as Hgeneric.
  apply decodeAndVerifyJwt_threw in Hgeneric as (-> & cause0 & Hst).
  split; [reflexivity|]. split; [exists cause0; now rewrite Hst|].
  split; [now rewrite Hst|]. split; [now rewrite Hst|].
  split; [now rewrite Hst|]. clear cause0 Hst.
  rewrite decodeAndVerifyJwt_cases in H.
  destruct (decode jwt) as [decoded | e] eqn:Hdec.
  - assert (Hnoissuer :
      (forall claims, decoded = Some (PayloadObject claims) ->
                      falsy (Payload.iss claims) = true) ->
      (Threw genericError, logged st (CouldNotDecodeIssuer decoded))
      = (@Threw Decoded genericError, st') ->
      exists cause,
        st' = logged st cause
        /\ ((exists s key,
               jwt = Compact (PayloadString s) key /\ cause = SyntaxError s)
            \/ (exists decoded0,
                  Returned decoded = Returned decoded0
                  /\ (forall claims,
                        decoded0 = Some (PayloadObject claims) ->
                        falsy (Payload.iss claims) = true)
                  /\ cause = CouldNotDecodeIssuer decoded0)
            \/ (exists claims key iss,
                  jwt = Compact (PayloadObject claims) key
                  /\ Payload.iss claims = Some iss
                  /\ iss <> ""
                  /\ findOne (byUuid iss) (organizationsRepository st) = None
                  /\ cause = EntityNotFoundError)
            \/ (exists claims key iss org,
                  jwt = Compact (PayloadObject claims) key
                  /\ Payload.iss claims = Some iss
                  /\ iss <> ""
                  /\ findOne (byUuid iss) (organizationsRepository st)
                     = Some org
                  /\ verify now jwt (Organization.sharedSecret org)
                       JWT_MAX_AGE
                     = Threw cause
                  /\ (Organization.sharedSecret org <> "" ->
                      key <> Organization.sharedSecret org ->
                      cause = JsonWebTokenError "invalid signature")
                  /\ (Organization.sharedSecret org <> "" ->
                      key = Organization.sharedSecret org ->
                      otherTimeChecksPass now claims = true ->
                      forall t,
                        Payload.iat claims = Some t ->
                        t + 300 <= now
                        /\ cause = TokenExpiredError "maxAge exceeded")))).
    { intros Hfalsy Heq. inversion Heq. eexists. split; [reflexivity|].
      right. left. exists decoded. auto. }
    destruct decoded as [[s | v | claims]|];
      try (apply Hnoissuer; [intros c Hc; discriminate Hc | exact H]).
    destruct (Payload.iss claims) as [[|c rest]|] eqn:Hiss;
      try (apply Hnoissuer; [|exact H];
           intros c' Hc'; inversion Hc'; subst c'; now rewrite Hiss).
    clear Hnoissuer.
    apply decode_object in Hdec as [key ->].
    destruct (findOne _ _) as [org|] eqn:Horg.
    + destruct (verify now (Compact (PayloadObject claims) key)
                  (Organization.sharedSecret org) JWT_MAX_AGE)
        as [x | cause] eqn:Hverify.
      * destruct (verify_returns_object _ _ _ _ _ _ Hverify) as [-> _].
        discriminate H.
      * inversion H. eexists. split; [reflexivity|].
        right. right. right.
        exists claims, key, (String c rest), org.
        split; [reflexivity|]. split; [exact Hiss|].
        split; [discriminate|]. split; [exact Horg|].
        split; [exact Hverify|]. split.
        -- intros Hsecret Hkey.
           rewrite (verify_wrong_key _ _ _ _ _ Hsecret Hkey) in Hverify.
           now inversion Hverify.
        -- intros Hsecret Hkey Hother t Hiat. subst key.
           exact (verify_threw_for_age _ _ _ _ _ Hsecret Hother Hiat Hverify).
    + inversion H. eexists. split; [reflexivity|].
      right. right. left. exists claims, key, (String c rest).
      repeat split; auto. discriminate.
  - inversion H. eexists. split; [reflexivity|]. left.
    destruct jwt as [raw | [s | [| b | z | s | items] | claims] key];
      try discriminate.
    cbn [decode] in Hdec. inversion Hdec. eauto.
Qed.

Lemma every_token_failure_is_generic_witness :
  fst (decodeAndVerifyJwt 1000
         (signedBy Fixture.orgA (Fixture.claims "org-x" 800)) Fixture.st0)
  = Threw genericError
  /\ snd (decodeAndVerifyJwt 1000
            (signedBy Fixture.orgA (Fixture.claims "org-x" 800)) Fixture.st0)
     = logged Fixture.st0 EntityNotFoundError.
Proof.
  destruct (every_token_failure_is_generic 1000
              (signedBy Fixture.orgA (Fixture.claims "org-x" 800)) Fixture.st0
              genericError
              (snd (decodeAndVerifyJwt 1000
                      (signedBy Fixture.orgA (Fixture.claims "org-x" 800))
                      Fixture.st0)))
    as (_ & _ & _ & _ & _ & cause & Hst & Hcause).
  - reflexivity.
  - split; [reflexivity|].
    destruct Hcause as [(s & key & Hjwt & _)
                       | [(decoded & Hdec & Hfalsy & _)
                         | [(claims & key & iss & _ & _ & _ & _ & Hc)
                           | (claims & key & iss & org & Hjwt & Hiss & _
                              & Horg & _)]]].
    + discriminate Hjwt.
    + inversion Hdec; subst decoded.
      specialize (Hfalsy _ eq_refl). discriminate Hfalsy.
    + rewrite Hc in Hst. exact Hst.
    + inversion Hjwt; subst claims. inversion Hiss; subst iss.
      discriminate Horg.
Defined.

(** The causes are told apart in the log only. *)
Example causes_are_logged :
  logger (snd (decodeAndVerifyJwt 1000 (Malformed "not.a.token") Fixture.st0))
  = [CouldNotDecodeIssuer None]
  /\ logger (snd (decodeAndVerifyJwt 1000
                    (signedBy Fixture.orgA (Fixture.claims "org-x" 800))
                    Fixture.st0))
     = [EntityNotFoundError]
  /\ logger (snd (decodeAndVerifyJwt 1000
                    (signedBy Fixture.orgA (Fixture.claims "org-b" 800))
                    Fixture.st0))
     = [JsonWebTokenError "invalid signature"]
  /\ logger (snd (decodeAndVerifyJwt 1000
                    (signedBy Fixture.orgB (Fixture.claims "org-b" 100))
                    Fixture.st0))
     = [TokenExpiredError "maxAge exceeded"].
Proof. repeat split. Qed.

(** ** Freshness *)

(** [verify] on a token signed with the secret it is checked against, whose
    [nbf] and [exp] checks pass: only the age decides. *)
Lemma verify_by_age now org claims t :
  Organization.sharedSecret org <> "" ->
  Payload.iat claims = Some t ->
  otherTimeChecksPass now claims = true ->
  verify now (signedBy org claims) (Organization.sharedSecret org) JWT_MAX_AGE
  = if t + 300 <=? now
    then Threw (TokenExpiredError "maxAge exceeded")
    else Returned (PayloadObject claims).
Proof.
  intros Hsecret Hiat Hother.
  unfold signedBy, verify.
  apply String.eqb_neq in Hsecret. rewrite Hsecret, String.eqb_refl.
  cbn [negb]. unfold otherTimeChecksPass in Hother.
  apply andb_true_iff in Hother as [Hnbf Hexp].
  apply negb_true_iff in Hnbf, Hexp. rewrite Hnbf, Hexp, Hiat.
  now rewrite timespan_JWT_MAX_AGE.
Qed.

(** C6: a correctly signed token of a known organization, all other checks
    passing, is rejected when it was issued more than 300 seconds before
    verification time, and accepted when it was issued 299 seconds
    before. *)
Theorem maxAge_boundary now st org claims t :
  findOne (byUuid (Organization.uuid org)) (organizationsRepository st)
  = Some org ->
  Organization.uuid org <> "" ->
  Organization.sharedSecret org <> "" ->
  Payload.iss claims = Some (Organization.uuid org) ->
  Payload.iat claims = Some t ->
  otherTimeChecksPass now claims = true ->
  (300 < now - t ->
   exists st',
     decodeAndVerifyJwt now (signedBy org claims) st = (Threw genericError, st')
     /\ logger st' = (logger st ++ [TokenExpiredError "maxAge exceeded"])%list)
  /\ (now - t = 299 ->
      decodeAndVerifyJwt now (signedBy org claims) st
      = (Returned (mkDecoded claims org), st)).
Proof.
  intros Horg Hne Hsecret Hiss Hiat Hother.
  pose proof (verify_by_age now org claims t Hsecret Hiat Hother) as Hverify.
  split; intros Hage.
  - assert (Hold : (t + 300 <=? now) = true) by (apply Z.leb_le; lia).
    rewrite Hold in Hverify.
    unfold decodeAndVerifyJwt, tryCatch, bind, findOneOrFail, lift.
    unfold signedBy in *. cbn [decode]. rewrite Hiss.
    destruct (Organization.uuid org) as [|c iss] eqn:Huuid; [contradiction|].
    cbn [falsy]. rewrite Horg, Hverify.
    eexists. split; reflexivity.
  - assert (Hyoung : (t + 300 <=? now) = false) by (apply Z.leb_gt; lia).
    rewrite Hyoung in Hverify.
    now apply (decodeAndVerifyJwt_accepts now claims _ st org
                 (Organization.uuid org)).
Qed.

Lemma maxAge_boundary_witness :
  (exists st',
     decodeAndVerifyJwt 1000
       (signedBy Fixture.orgB (Fixture.claims "org-b" 699)) Fixture.st0
     = (Threw genericError, st')
     /\ logger st'
        = (logger Fixture.st0 ++ [TokenExpiredError "maxAge exceeded"])%list)
  /\ decodeAndVerifyJwt 1000
       (signedBy Fixture.orgB (Fixture.claims "org-b" 701)) Fixture.st0
     = (Returned (mkDecoded (Fixture.claims "org-b" 701) Fixture.orgB),
        Fixture.st0).
Proof.
  split.
  - apply (proj1 (maxAge_boundary 1000 Fixture.st0 Fixture.orgB
                    (Fixture.claims "org-b" 699) 699
                    eq_refl ltac:(discriminate) ltac:(discriminate)
                    eq_refl eq_refl eq_refl)).
    reflexivity.
  - apply (proj2 (maxAge_boundary 1000 Fixture.st0 Fixture.orgB
                    (Fixture.claims "org-b" 701) 701
                    eq_refl ltac:(discriminate) ltac:(discriminate)
                    eq_refl eq_refl eq_refl)).
    reflexivity.
Defined.

(** ** The disclosure endpoint *)

(** C9, as stated, fails: when the connector's disclosure step fails, the
    endpoint fails with the connector's error and calls the gateway not at
    all, whatever sessions are registered. *)
Lemma failed_disclosure_sends_no_notification :
  ConnectorService.handleVerifyCredentialDisclosure Fixture.failingConnector
    Fixture.verifyRow1 JNull
  = Threw (ConnectorError "disclosure proof rejected")
  /\ handleCredentialVerifyDisclosure Fixture.encode Fixture.failingConnector
       Fixture.verifyRow1 JNull []
     = (Threw (ConnectorError "disclosure proof rejected"), []).
Proof. split; reflexivity. Qed.

(** C9 (amended): when the connector's disclosure step fails, the endpoint
    fails with the same error, encodes no outcome token and sends no
    notification; when the step returns data, the endpoint encodes an
    outcome token of status [success] and sends exactly one notification,
    of status [success], for the request's [requestId], with the callbackUrl
    followed by the token as redirect target. *)
Theorem disclosure_endpoint_outcome
    (encode : CredentialVerifyRequest.t -> ResponseStatus -> string -> Json
              -> string)
    connector verifyRequest body gateway :
  (forall e,
     ConnectorService.handleVerifyCredentialDisclosure connector verifyRequest
       body = Threw e ->
     handleCredentialVerifyDisclosure encode connector verifyRequest body
       gateway
     = (Threw e, gateway))
  /\ (forall data,
        ConnectorService.handleVerifyCredentialDisclosure connector
          verifyRequest body = Returned data ->
        handleCredentialVerifyDisclosure encode connector verifyRequest body
          gateway
        = (Returned tt,
           (gateway
            ++ [mkRedirectResponse
                  (CredentialVerifyRequest.requestId verifyRequest) success
                  (CredentialVerifyRequest.callbackUrl verifyRequest
                   ++ encode verifyRequest success
                        (ConnectorService.name connector) data)])%list)).
Proof.
  unfold handleCredentialVerifyDisclosure, sendRedirectResponse.
  split; intros x Hstep; rewrite Hstep; reflexivity.
Qed.

Lemma disclosure_endpoint_outcome_witness :
  handleCredentialVerifyDisclosure Fixture.encode Fixture.failingConnector
    Fixture.verifyRow1 JNull []
  = (Threw (ConnectorError "disclosure proof rejected"), [])
  /\ handleCredentialVerifyDisclosure Fixture.encode Fixture.demoConnector
       Fixture.verifyRow1 JNull []
     = (Returned tt,
        [mkRedirectResponse ("verify:" ++ Fixture.u1) success
           ("https://example.com/cb?token=ok.demo." ++ Fixture.u1)]).
Proof.
  split.
  - apply (proj1 (disclosure_endpoint_outcome Fixture.encode
                    Fixture.failingConnector Fixture.verifyRow1 JNull [])).
    reflexivity.
  - apply (proj2 (disclosure_endpoint_outcome Fixture.encode
                    Fixture.demoConnector Fixture.verifyRow1 JNull [])
             (JObject [("name", JString "Alice")])).
    reflexivity.
Defined.

(** * Further properties of the service *)

(** ** Shared lemmas *)

Lemma findOne_some {A} (f : A -> bool) (rows : list A) (x : A) :
  findOne f rows = Some x -> In x rows /\ f x = true.
Proof. apply find_some. Qed.

Lemma findOne_none_inv {A} (f : A -> bool) (rows : list A) :
  findOne f rows = None -> forall x, In x rows -> f x = false.
Proof. apply find_none. Qed.

Lemma findOne_app_some {A} (f : A -> bool) (rows more : list A) (x : A) :
  findOne f rows = Some x -> findOne f (rows ++ more) = Some x.
Proof.
  unfold findOne. induction rows as [|y rows IH]; simpl; [discriminate|].
  destruct (f y); auto.
Qed.

(** In a table whose keys are pairwise distinct, the lookup of the key of a
    row returns that row. *)
Lemma findOne_unique_key {A} (key : A -> string) (rows : list A) (x : A) :
  NoDup (map key rows) ->
  In x rows ->
  findOne (fun r => String.eqb (key r) (key x)) rows = Some x.
Proof.
  unfold findOne. induction rows as [|y rows IH]; simpl; [contradiction|].
  intros Hnodup Hin. inversion Hnodup as [|k ks Hnotin Hrest]; subst.
  destruct Hin as [-> | Hin].
  - now rewrite String.eqb_refl.
  - destruct (String.eqb (key y) (key x)) eqn:Heq.
    + apply String.eqb_eq in Heq. exfalso. apply Hnotin. rewrite Heq.
      now apply in_map.
    + now apply IH.
Qed.

Lemma addressable_spec u :
  addressable u = true <-> u <> "" /\ occurs ":" u = false.
Proof.
  unfold addressable. rewrite andb_true_iff, !negb_true_iff.
  now rewrite String.eqb_neq.
Qed.

(** What either accepting operation does to the state, whatever the
    outcome. *)
Lemma decodeVerifyRequestToken_run now u jwt st o st' :
  decodeVerifyRequestToken now u jwt st = (o, st') ->
  match o with
  | Returned r =>
      st' = mkState (organizationsRepository st) (issueRequestsRepository st)
              (verifyRequestsRepository st ++ [r]) (typesRepository st)
              (logger st)
  | Threw e =>
      (e = genericError /\ exists cause, st' = logged st cause)
      \/ (e = EntityNotFoundError /\ st' = st)
  end.
Proof.
  destruct o as [r | e]; intros Hrun.
  - now apply decodeVerifyRequestToken_returned in Hrun
      as (d & t & _ & _ & _ & ->).
  - revert Hrun. unfold decodeVerifyRequestToken, bind.
    destruct (decodeAndVerifyJwt now jwt st) as [[d | e1] st1] eqn:Hjwt.
    + destruct (decodeAndVerifyJwt_returned _ _ _ _ _ Hjwt) as [-> _].
      unfold findCredentialType, findOneOrFail.
      destruct (findOne _ _); [discriminate|].
      intros H. inversion H. now right.
    + apply decodeAndVerifyJwt_threw in Hjwt as (-> & cause & ->).
      intros H. inversion H. left. split; [reflexivity|]. now exists cause.
Qed.

Lemma decodeIssueRequestToken_run now u jwt st o st' :
  decodeIssueRequestToken now u jwt st = (o, st') ->
  match o with
  | Returned r =>
      st' = mkState (organizationsRepository st)
              (issueRequestsRepository st ++ [r])
              (verifyRequestsRepository st) (typesRepository st)
              (logger st)
  | Threw e =>
      (e = genericError /\ exists cause, st' = logged st cause)
      \/ (e = EntityNotFoundError /\ st' = st)
  end.
Proof.
  destruct o as [r | e]; intros Hrun.
  - now apply decodeIssueRequestToken_returned in Hrun
      as (d & t & _ & _ & _ & ->).
  - revert Hrun. unfold decodeIssueRequestToken, bind.
    destruct (decodeAndVerifyJwt now jwt st) as [[d | e1] st1] eqn:Hjwt.
    + destruct (decodeAndVerifyJwt_returned _ _ _ _ _ Hjwt) as [-> _].
      unfold findCredentialType, findOneOrFail.
      destruct (findOne _ _); [discriminate|].
      intros H. inversion H. now right.
    + apply decodeAndVerifyJwt_threw in Hjwt as (-> & cause & ->).
      intros H. inversion H. left. split; [reflexivity|]. now exists cause.
Qed.

(** Both operations only ever append to the request stores, and leave the
    organizations and the types alone. *)
Lemma decodeVerifyRequestToken_appends now u jwt st o st' :
  decodeVerifyRequestToken now u jwt st = (o, st') ->
  organizationsRepository st' = organizationsRepository st
  /\ typesRepository st' = typesRepository st
  /\ issueRequestsRepository st' = issueRequestsRepository st
  /\ exists more,
       verifyRequestsRepository st' = (verifyRequestsRepository st ++ more)%list
       /\ more = match o with Returned r => [r] | Threw _ => [] end.
Proof.
  intros Hrun. apply decodeVerifyRequestToken_run in Hrun.
  destruct o as [r | e].
  - subst st'. cbn. repeat split. now exists [r].
  - destruct Hrun as [(_ & cause & ->) | (_ & ->)]; cbn; repeat split;
      exists []; now rewrite app_nil_r.
Qed.

Lemma decodeIssueRequestToken_appends now u jwt st o st' :
  decodeIssueRequestToken now u jwt st = (o, st') ->
  organizationsRepository st' = organizationsRepository st
  /\ typesRepository st' = typesRepository st
  /\ verifyRequestsRepository st' = verifyRequestsRepository st
  /\ exists more,
       issueRequestsRepository st' = (issueRequestsRepository st ++ more)%list
       /\ more = match o with Returned r => [r] | Threw _ => [] end.
Proof.
  intros Hrun. apply decodeIssueRequestToken_run in Hrun.
  destruct o as [r | e].
  - subst st'. cbn. repeat split. now exists [r].
  - destruct Hrun as [(_ & cause & ->) | (_ & ->)]; cbn; repeat split;
      exists []; now rewrite app_nil_r.
Qed.

(** ** What the accepting operations touch *)

(** X1: whatever the outcome, [decodeVerifyRequestToken] leaves the
    organizations, the credential types and the issue requests as they
    were; on success it appends exactly the returned record to the verify
    requests and logs nothing, on failure the verify requests are unchanged.
    [decodeIssueRequestToken] does the same with the two stores swapped. *)
Theorem accepting_operations_only_append now u jwt st :
  (forall o st',
     decodeVerifyRequestToken now u jwt st = (o, st') ->
     organizationsRepository st' = organizationsRepository st
     /\ typesRepository st' = typesRepository st
     /\ issueRequestsRepository st' = issueRequestsRepository st
     /\ match o with
        | Returned r =>
            verifyRequestsRepository st'
            = (verifyRequestsRepository st ++ [r])%list
            /\ logger st' = logger st
        | Threw _ => verifyRequestsRepository st' = verifyRequestsRepository st
        end)
  /\ (forall o st',
        decodeIssueRequestToken now u jwt st = (o, st') ->
        organizationsRepository st' = organizationsRepository st
        /\ typesRepository st' = typesRepository st
        /\ verifyRequestsRepository st' = verifyRequestsRepository st
        /\ match o with
           | Returned r =>
               issueRequestsRepository st'
               = (issueRequestsRepository st ++ [r])%list
               /\ logger st' = logger st
           | Threw _ => issueRequestsRepository st' = issueRequestsRepository st
           end).
Proof.
  split; intros o st' Hrun.
  - apply decodeVerifyRequestToken_run in Hrun. destruct o as [r | e].
    + subst st'. cbn. repeat split.
    + destruct Hrun as [(_ & cause & ->) | (_ & ->)]; cbn; repeat split.
  - apply decodeIssueRequestToken_run in Hrun. destruct o as [r | e].
    + subst st'. cbn. repeat split.
    + destruct Hrun as [(_ & cause & ->) | (_ & ->)]; cbn; repeat split.
Qed.

Lemma accepting_operations_only_append_witness :
  verifyRequestsRepository
    (snd (decodeVerifyRequestToken 1000 Fixture.u1
            (signedBy Fixture.orgB (Fixture.claims "org-b" 800)) Fixture.st0))
  = [Fixture.verifyRow1]
  /\ issueRequestsRepository
       (snd (decodeVerifyRequestToken 1000 Fixture.u1
               (signedBy Fixture.orgB (Fixture.claims "org-b" 800))
               Fixture.st0))
     = [].
Proof.
  destruct (proj1 (accepting_operations_only_append 1000 Fixture.u1
                     (signedBy Fixture.orgB (Fixture.claims "org-b" 800))
                     Fixture.st0)
              (Returned Fixture.verifyRow1)
              (snd (decodeVerifyRequestToken 1000 Fixture.u1
                      (signedBy Fixture.orgB (Fixture.claims "org-b" 800))
                      Fixture.st0)))
    as (_ & _ & Hissue & Hverify & _).
  - vm_compute; reflexivity.
  - split; [exact Hverify | exact Hissue].
Defined.

(** X2: an accepting operation fails in one of two ways only. Either with
    the generic [InvalidRequestJWT], and then exactly one cause was logged
    and nothing else changed; or with typeorm's [EntityNotFoundError] of the
    credential-type lookup, which is not caught: the token was authentic,
    the state is untouched and nothing is logged. *)
Theorem accepting_operations_fail_in_two_ways now u jwt st e st' :
  decodeVerifyRequestToken now u jwt st = (Threw e, st')
  \/ decodeIssueRequestToken now u jwt st = (Threw e, st') ->
  (e = genericError
   /\ (exists cause, st' = logged st cause)
   /\ exists st1, decodeAndVerifyJwt now jwt st = (Threw genericError, st1))
  \/ (e = EntityNotFoundError
      /\ st' = st
      /\ exists d,
           decodeAndVerifyJwt now jwt st = (Returned d, st)
           /\ findOne (byOwnerAndName (requestor d) (Payload.type (request d)))
                (typesRepository st) = None).
Proof.
  assert (Hcases :
    forall A (k : Decoded -> CredentialType.t -> M A),
      (forall d t st0 o st1, k d t st0 = (o, st1) -> exists a, o = Returned a) ->
      bind (decodeAndVerifyJwt now jwt)
        (fun d => bind (findCredentialType (requestor d)
                          (Payload.type (request d))) (k d)) st
      = (Threw e, st') ->
      (e = genericError
       /\ (exists cause, st' = logged st cause)
       /\ exists st1, decodeAndVerifyJwt now jwt st = (Threw genericError, st1))
      \/ (e = EntityNotFoundError
          /\ st' = st
          /\ exists d,
               decodeAndVerifyJwt now jwt st = (Returned d, st)
               /\ findOne (byOwnerAndName (requestor d)
                             (Payload.type (request d)))
                    (typesRepository st) = None)).
  { intros A k Hk. unfold bind at 1.
    destruct (decodeAndVerifyJwt now jwt st) as [[d | e1] st1] eqn:Hjwt.
    - destruct (decodeAndVerifyJwt_returned _ _ _ _ _ Hjwt) as [-> _].
      unfold bind, findCredentialType, findOneOrFail.
      destruct (findOne _ _) as [t|] eqn:Htype.
      + intros H. apply Hk in H as [a Ha]. discriminate.
      + intros H. inversion H; subst. right. repeat split. now exists d.
    - pose proof Hjwt as Hjwt'.
      apply decodeAndVerifyJwt_threw in Hjwt' as (-> & cause & ->).
      intros H. inversion H; subst. left. split; [reflexivity|].
      split; [now exists cause|]. eexists. reflexivity. }
  intros [H | H].
  - apply (Hcases _ (fun d type =>
             saveVerifyRequest u
               (CredentialVerifyRequest.mk "" (requestor d) type
                  (Payload.callbackUrl (request d))))); [|exact H].
    intros d t st0 o st1 Hsave. unfold saveVerifyRequest in Hsave.
    inversion Hsave. eauto.
  - apply (Hcases _ (fun d type =>
             saveIssueRequest u
               (CredentialIssueRequest.mk "" (requestor d) type
                  (Payload.callbackUrl (request d))
                  (Payload.data (request d))))); [|exact H].
    intros d t st0 o st1 Hsave. unfold saveIssueRequest in Hsave.
    inversion Hsave. eauto.
Qed.

Lemma accepting_operations_fail_in_two_ways_witness :
  exists d,
    decodeAndVerifyJwt 1000
      (signedBy Fixture.orgB
         (Payload.mk (Some "org-b") (Some 800) None None "diploma"
            "https://example.com/cb?token=" None))
      Fixture.st0
    = (Returned d, Fixture.st0)
    /\ findOne (byOwnerAndName (requestor d) (Payload.type (request d)))
         (typesRepository Fixture.st0) = None.
Proof.
  destruct (accepting_operations_fail_in_two_ways 1000 Fixture.u1
              (signedBy Fixture.orgB
                 (Payload.mk (Some "org-b") (Some 800) None None "diploma"
                    "https://example.com/cb?token=" None))
              Fixture.st0 EntityNotFoundError Fixture.st0)
    as [(Habs & _) | (_ & _ & Hd)].
  - left. reflexivity.
  - discriminate Habs.
  - exact Hd.
Defined.

(** ** What an accepted token guarantees *)

(** Everything [verify] has checked when it returns. *)
Lemma verify_returned now p key secret x :
  verify now (Compact (PayloadObject p) key) secret JWT_MAX_AGE = Returned x ->
  secret <> ""
  /\ key = secret
  /\ x = PayloadObject p
  /\ otherTimeChecksPass now p = true
  /\ exists t, Payload.iat p = Some t /\ now < t + 300.
Proof.
  unfold verify, otherTimeChecksPass.
  destruct (String.eqb secret "") eqn:Hsecret; [discriminate|].
  destruct (String.eqb key secret) eqn:Hkey; [|discriminate]. cbn [negb].
  destruct (match Payload.nbf p with Some nbf => now <? nbf | None => false end);
    [discriminate|].
  destruct (match Payload.exp p with Some exp => exp <=? now | None => false end);
    [discriminate|].
  destruct (Payload.iat p) as [t|]; [|discriminate].
  rewrite timespan_JWT_MAX_AGE.
  destruct (t + 300 <=? now) eqn:Hage; [discriminate|].
  intros H. inversion H.
  apply String.eqb_neq in Hsecret. apply String.eqb_eq in Hkey.
  apply Z.leb_gt in Hage. repeat split; auto. now exists t.
Qed.



(** X4: when [decodeAndVerifyJwt] returns at clock time [now], the token
    carries an [iat] claim less than 300 seconds old, its [nbf] claim (if
    any) is not in the future and its [exp] claim (if any) is not
    reached. *)
Theorem authenticated_token_is_fresh now jwt st d st' :
  decodeAndVerifyJwt now jwt st = (Returned d, st') ->
  (exists t, Payload.iat (request d) = Some t /\ now - t < 300)
  /\ (forall nbf, Payload.nbf (request d) = Some nbf -> nbf <= now)
  /\ (forall exp, Payload.exp (request d) = Some exp -> now < exp).
Proof.
  intros Hrun.
  apply decodeAndVerifyJwt_returned in Hrun
    as (-> & iss & Hdec & _ & _ & _ & Hverify).
  apply decode_object in Hdec as [key ->].
  apply verify_returned in Hverify as (_ & _ & _ & Hother & t & Hiat & Hage).
  unfold otherTimeChecksPass in Hother.
  apply andb_true_iff in Hother as [Hnbf Hexp].
  apply negb_true_iff in Hnbf, Hexp.
  split; [exists t; split; [exact Hiat | lia]|].
  split.
  - intros nbf Heq. rewrite Heq in Hnbf. apply Z.ltb_ge in Hnbf. exact Hnbf.
  - intros exp Heq. rewrite Heq in Hexp. apply Z.leb_gt in Hexp. exact Hexp.
Qed.

Lemma authenticated_token_is_fresh_witness :
  (exists t, Payload.iat (Fixture.claims "org-b" 800) = Some t /\ 1000 - t < 300)
  /\ (forall nbf, Payload.nbf (Fixture.claims "org-b" 800) = Some nbf ->
                  nbf <= 1000)
  /\ (forall exp, Payload.exp (Fixture.claims "org-b" 800) = Some exp ->
                  1000 < exp).
Proof.
  apply (authenticated_token_is_fresh 1000
           (signedBy Fixture.orgB (Fixture.claims "org-b" 800)) Fixture.st0
           (mkDecoded (Fixture.claims "org-b" 800) Fixture.orgB) Fixture.st0).
  reflexivity.
Defined.

(** X5: every record an accepting operation returns comes from the token:
    the token is some claims signed with the secret of the record's
    requestor, the callbackUrl (and, for an issue request, the data) is the
    one of those claims, the record's type is a row of the types table
    whose name is the declared type, and its uuid is the generated one. *)
Theorem created_record_reflects_signed_token now u jwt st :
  (forall r st',
     decodeVerifyRequestToken now u jwt st = (Returned r, st') ->
     exists claims,
       jwt = signedBy (CredentialVerifyRequest.requestor r) claims
       /\ CredentialVerifyRequest.uuid r = u
       /\ CredentialVerifyRequest.callbackUrl r = Payload.callbackUrl claims
       /\ CredentialType.type (CredentialVerifyRequest.type r)
          = Payload.type claims
       /\ In (CredentialVerifyRequest.type r) (typesRepository st)
       /\ In (CredentialVerifyRequest.requestor r) (organizationsRepository st))
  /\ (forall r st',
        decodeIssueRequestToken now u jwt st = (Returned r, st') ->
        exists claims,
          jwt = signedBy (CredentialIssueRequest.requestor r) claims
          /\ CredentialIssueRequest.uuid r = u
          /\ CredentialIssueRequest.callbackUrl r = Payload.callbackUrl claims
          /\ CredentialIssueRequest.data r = Payload.data claims
          /\ CredentialType.type (CredentialIssueRequest.type r)
             = Payload.type claims
          /\ In (CredentialIssueRequest.type r) (typesRepository st)
          /\ In (CredentialIssueRequest.requestor r)
               (organizationsRepository st)).
Proof.
  split; intros r st' Hrun.
  - apply decodeVerifyRequestToken_returned in Hrun
      as (d & t & Hjwt & Htype & -> & _).
    apply find_byOwnerAndName in Htype as (_ & Hname & Hin).
    pose proof Hjwt as Hd. apply decodeAndVerifyJwt_returned in Hd
      as (_ & iss & Hdec & _ & _ & Horg & Hverify).
    apply decode_object in Hdec as [key ->].
    apply verify_returned in Hverify as (_ & -> & _).
    apply find_byUuid in Horg as (_ & Horg).
    exists (request d). cbn. repeat split; auto.
  - apply decodeIssueRequestToken_returned in Hrun
      as (d & t & Hjwt & Htype & -> & _).
    apply find_byOwnerAndName in Htype as (_ & Hname & Hin).
    pose proof Hjwt as Hd. apply decodeAndVerifyJwt_returned in Hd
      as (_ & iss & Hdec & _ & _ & Horg & Hverify).
    apply decode_object in Hdec as [key ->].
    apply verify_returned in Hverify as (_ & -> & _).
    apply find_byUuid in Horg as (_ & Horg).
    exists (request d). cbn. repeat split; auto.
Qed.

Lemma created_record_reflects_signed_token_witness :
  exists claims,
    signedBy Fixture.orgB (Fixture.claims "org-b" 800)
    = signedBy (CredentialVerifyRequest.requestor Fixture.verifyRow1) claims
    /\ CredentialVerifyRequest.uuid Fixture.verifyRow1 = Fixture.u1
    /\ CredentialVerifyRequest.callbackUrl Fixture.verifyRow1
       = Payload.callbackUrl claims
    /\ CredentialType.type (CredentialVerifyRequest.type Fixture.verifyRow1)
       = Payload.type claims
    /\ In (CredentialVerifyRequest.type Fixture.verifyRow1)
         (typesRepository Fixture.st0)
    /\ In (CredentialVerifyRequest.requestor Fixture.verifyRow1)
         (organizationsRepository Fixture.st0).
Proof.
  apply (proj1 (created_record_reflects_signed_token 1000 Fixture.u1
                  (signedBy Fixture.orgB (Fixture.claims "org-b" 800))
                  Fixture.st0)
           Fixture.verifyRow1
           (snd (decodeVerifyRequestToken 1000 Fixture.u1
                   (signedBy Fixture.orgB (Fixture.claims "org-b" 800))
                   Fixture.st0))).
  vm_compute; reflexivity.
Defined.

(** ** Credential types are scoped to their organization *)

(** X6: an authentic token that declares a type name its requestor does not
    own is refused by both accepting operations with [EntityNotFoundError],
    even when another organization owns a type of that name; nothing is
    created and nothing is logged. *)
Theorem type_of_another_organization_is_not_found now u jwt st d :
  decodeAndVerifyJwt now jwt st = (Returned d, st) ->
  (forall t, In t (typesRepository st) ->
             CredentialType.organization t = requestor d ->
             CredentialType.type t <> Payload.type (request d)) ->
  decodeVerifyRequestToken now u jwt st = (Threw EntityNotFoundError, st)
  /\ decodeIssueRequestToken now u jwt st = (Threw EntityNotFoundError, st).
Proof.
  intros Hjwt Hnone.
  assert (Hfind :
    findOne (byOwnerAndName (requestor d) (Payload.type (request d)))
      (typesRepository st) = None).
  { apply findOne_none. intros t Hin. unfold byOwnerAndName.
    destruct (Organization.eqb (CredentialType.organization t) (requestor d))
      eqn:Ho; [|reflexivity].
    apply Organization_eqb_eq in Ho. cbn [andb].
    apply String.eqb_neq. now apply Hnone. }
  unfold decodeVerifyRequestToken, decodeIssueRequestToken, bind.
  rewrite Hjwt. unfold findCredentialType, findOneOrFail. rewrite Hfind.
  split; reflexivity.
Qed.

Lemma type_of_another_organization_is_not_found_witness :
  decodeVerifyRequestToken 1000 Fixture.u1
    (signedBy Fixture.orgB (Fixture.claims "org-b" 800))
    (mkState [Fixture.orgA; Fixture.orgB] [] [] [Fixture.passportA] [])
  = (Threw EntityNotFoundError,
     mkState [Fixture.orgA; Fixture.orgB] [] [] [Fixture.passportA] [])
  /\ decodeIssueRequestToken 1000 Fixture.u1
       (signedBy Fixture.orgB (Fixture.claims "org-b" 800))
       (mkState [Fixture.orgA; Fixture.orgB] [] [] [Fixture.passportA] [])
     = (Threw EntityNotFoundError,
        mkState [Fixture.orgA; Fixture.orgB] [] [] [Fixture.passportA] []).
Proof.
  apply (type_of_another_organization_is_not_found 1000 Fixture.u1
           (signedBy Fixture.orgB (Fixture.claims "org-b" 800))
           (mkState [Fixture.orgA; Fixture.orgB] [] [] [Fixture.passportA] [])
           (mkDecoded (Fixture.claims "org-b" 800) Fixture.orgB)).
  - reflexivity.
  - simpl. intros t [<- | []] Howner. discriminate Howner.
Defined.

(** ** Tokens refused before the signature is looked at *)

(** X7: [decodeAndVerifyJwt] refuses, with the generic error and the cause
    logged, every text that is no token, every token whose payload is not
    JSON (the [SyntaxError] of the parse is what is logged), every token
    whose payload is JSON but no object, every token whose issuer claim is
    missing or empty, and every token whose issuer is the uuid of no
    organization; the key the token was signed with plays no part in any of
    these. *)
Theorem token_without_known_issuer_is_refused now st :
  (forall raw,
     decodeAndVerifyJwt now (Malformed raw) st
     = (Threw genericError, logged st (CouldNotDecodeIssuer None)))
  /\ (forall s key,
        decodeAndVerifyJwt now (Compact (PayloadString s) key) st
        = (Threw genericError, logged st (SyntaxError s)))
  /\ (forall key,
        decodeAndVerifyJwt now (Compact (PayloadValue NNull) key) st
        = (Threw genericError, logged st (CouldNotDecodeIssuer None)))
  /\ (forall v key,
        v <> NNull ->
        decodeAndVerifyJwt now (Compact (PayloadValue v) key) st
        = (Threw genericError,
           logged st (CouldNotDecodeIssuer (Some (PayloadValue v)))))
  /\ (forall claims key,
        falsy (Payload.iss claims) = true ->
        decodeAndVerifyJwt now (Compact (PayloadObject claims) key) st
        = (Threw genericError,
           logged st (CouldNotDecodeIssuer (Some (PayloadObject claims)))))
  /\ (forall claims key iss,
        Payload.iss claims = Some iss ->
        iss <> "" ->
        (forall o, In o (organizationsRepository st) ->
                   Organization.uuid o <> iss) ->
        decodeAndVerifyJwt now (Compact (PayloadObject claims) key) st
        = (Threw genericError, logged st EntityNotFoundError)).
Proof.
  split; [reflexivity|]. split; [reflexivity|]. split; [reflexivity|].
  split; [|split].
  - intros v key Hv. destruct v; [contradiction| | | |]; reflexivity.
  - intros claims key Hfalsy.
    rewrite decodeAndVerifyJwt_cases. cbn [decode].
    destruct (Payload.iss claims) as [[|c rest]|]; try reflexivity.
    discriminate Hfalsy.
  - intros claims key iss Hiss Hne Hunknown.
    rewrite decodeAndVerifyJwt_cases. cbn [decode]. rewrite Hiss.
    destruct iss as [|c iss]; [contradiction|].
    rewrite findOne_none; [reflexivity|].
    intros o Hin. unfold byUuid. apply String.eqb_neq. now apply Hunknown.
Qed.

Lemma token_without_known_issuer_is_refused_witness :
  decodeAndVerifyJwt 1000
    (Compact (PayloadObject (Fixture.claims "org-x" 800)) "secret-a")
    Fixture.st0
  = (Threw genericError, logged Fixture.st0 EntityNotFoundError).
Proof.
  destruct (token_without_known_issuer_is_refused 1000 Fixture.st0)
    as (_ & _ & _ & _ & _ & Hunknown).
  apply (Hunknown (Fixture.claims "org-x" 800) "secret-a" "org-x").
  - reflexivity.
  - discriminate.
  - simpl. intros o [<- | [<- | [<- | []]]]; discriminate.
Defined.

(** ** No protection against replay *)

(** X8: the service keeps no trace of the tokens it has accepted: a token
    that was accepted is accepted again at the same clock time, in the state
    the first acceptance left, and yields a second record that differs from
    the first in its generated uuid only. *)
Theorem accepted_token_is_accepted_again now u u' jwt st r st' :
  decodeVerifyRequestToken now u jwt st = (Returned r, st') ->
  exists st'',
    decodeVerifyRequestToken now u' jwt st'
    = (Returned
         (CredentialVerifyRequest.mk u' (CredentialVerifyRequest.requestor r)
            (CredentialVerifyRequest.type r)
            (CredentialVerifyRequest.callbackUrl r)),
       st'')
    /\ verifyRequestsRepository st''
       = (verifyRequestsRepository st
          ++ [r;
              CredentialVerifyRequest.mk u'
                (CredentialVerifyRequest.requestor r)
                (CredentialVerifyRequest.type r)
                (CredentialVerifyRequest.callbackUrl r)])%list.
Proof.
  intros Hrun.
  apply decodeVerifyRequestToken_returned in Hrun
    as (d & t & Hjwt & Htype & -> & ->).
  pose proof Hjwt as Hd. apply decodeAndVerifyJwt_returned in Hd
    as (_ & iss & Hdec & Hiss & Hne & Horg & Hverify).
  apply decode_object in Hdec as [key ->].
  eexists. split.
  - unfold decodeVerifyRequestToken, bind.
    erewrite decodeAndVerifyJwt_accepts;
      [| exact Hiss | exact Hne | exact Horg | exact Hverify].
    unfold findCredentialType, findOneOrFail.
    cbn [typesRepository requestor request]. rewrite Htype.
    unfold saveVerifyRequest. cbn. reflexivity.
  - cbn. rewrite <- app_assoc. reflexivity.
Qed.

Lemma accepted_token_is_accepted_again_witness :
  exists st'',
    decodeVerifyRequestToken 1000 "9b2c1d3e-0f4a-4b5c-8d6e-7f8091a2b3c4"
      (signedBy Fixture.orgB (Fixture.claims "org-b" 800)) Fixture.st1
    = (Returned
         (CredentialVerifyRequest.mk "9b2c1d3e-0f4a-4b5c-8d6e-7f8091a2b3c4"
            (CredentialVerifyRequest.requestor Fixture.verifyRow1)
            (CredentialVerifyRequest.type Fixture.verifyRow1)
            (CredentialVerifyRequest.callbackUrl Fixture.verifyRow1)),
       st'')
    /\ verifyRequestsRepository st''
       = (verifyRequestsRepository Fixture.st0
          ++ [Fixture.verifyRow1;
              CredentialVerifyRequest.mk "9b2c1d3e-0f4a-4b5c-8d6e-7f8091a2b3c4"
                (CredentialVerifyRequest.requestor Fixture.verifyRow1)
                (CredentialVerifyRequest.type Fixture.verifyRow1)
                (CredentialVerifyRequest.callbackUrl Fixture.verifyRow1)])%list.
Proof.
  apply (accepted_token_is_accepted_again 1000 Fixture.u1
           "9b2c1d3e-0f4a-4b5c-8d6e-7f8091a2b3c4"
           (signedBy Fixture.orgB (Fixture.claims "org-b" 800))
           Fixture.st0 Fixture.verifyRow1 Fixture.st1).
  vm_compute; reflexivity.
Defined.

(** ** Lookups by composite identifier *)

Lemma lookupByTag_extends tag uuid st st' moreVerify moreIssue req :
  verifyRequestsRepository st'
  = (verifyRequestsRepository st ++ moreVerify)%list ->
  issueRequestsRepository st'
  = (issueRequestsRepository st ++ moreIssue)%list ->
  lookupByTag tag uuid st = Some req ->
  lookupByTag tag uuid st' = Some req.
Proof.
  intros Hverify Hissue. unfold lookupByTag.
  destruct (String.eqb uuid ""); [discriminate|].
  unfold findVerifyRequestByIdentifier, findIssueRequestByIdentifier.
  rewrite Hverify, Hissue.
  destruct (String.eqb tag CredentialVerifyRequest.requestType).
  - destruct (findOne _ (verifyRequestsRepository st)) as [r|] eqn:Hfind;
      [|discriminate].
    now rewrite (findOne_app_some _ _ moreVerify r Hfind).
  - destruct (String.eqb tag CredentialIssueRequest.requestType);
      [|discriminate].
    destruct (findOne _ (issueRequestsRepository st)) as [r|] eqn:Hfind;
      [|discriminate].
    now rewrite (findOne_app_some _ _ moreIssue r Hfind).
Qed.

(** X9: an identifier that resolves to a record keeps resolving to that
    record after any call of an accepting operation, whether the call
    succeeds or fails and whatever uuid the database generates (even one
    already in use): records are never removed, changed or shadowed. *)
Theorem resolved_request_stays_resolved now u jwt st requestId req :
  findRequestByRequestId requestId st = Some req ->
  (forall o st',
     decodeVerifyRequestToken now u jwt st = (o, st') ->
     findRequestByRequestId requestId st' = Some req)
  /\ (forall o st',
        decodeIssueRequestToken now u jwt st = (o, st') ->
        findRequestByRequestId requestId st' = Some req).
Proof.
  rewrite findRequestByRequestId_segments.
  destruct (after ":" requestId) as [rest|] eqn:Hafter; [|discriminate].
  intros Hfound. split; intros o st' Hrun;
    rewrite findRequestByRequestId_segments, Hafter.
  - apply decodeVerifyRequestToken_appends in Hrun
      as (_ & _ & Hissue & more & Hverify & _).
    apply (lookupByTag_extends _ _ st st' more []); auto.
    now rewrite app_nil_r.
  - apply decodeIssueRequestToken_appends in Hrun
      as (_ & _ & Hverify & more & Hissue & _).
    apply (lookupByTag_extends _ _ st st' [] more); auto.
    now rewrite app_nil_r.
Qed.

Lemma resolved_request_stays_resolved_witness :
  findRequestByRequestId ("verify:" ++ Fixture.u1)
    (snd (decodeVerifyRequestToken 1000 Fixture.u1
            (signedBy Fixture.orgC (Fixture.claims "org-c" 800)) Fixture.st1))
  = Some (VerifyRequest Fixture.verifyRow1).
Proof.
  apply (proj1 (resolved_request_stays_resolved 1000 Fixture.u1
                  (signedBy Fixture.orgC (Fixture.claims "org-c" 800))
                  Fixture.st1 ("verify:" ++ Fixture.u1)
                  (VerifyRequest Fixture.verifyRow1) eq_refl)
           (fst (decodeVerifyRequestToken 1000 Fixture.u1
                   (signedBy Fixture.orgC (Fixture.claims "org-c" 800))
                   Fixture.st1))).
  vm_compute; reflexivity.
Defined.

(** X10: what [findRequestByRequestId] returns matches what was asked for:
    a verify request is returned only for the tag ["verify"] and an issue
    request only for the tag ["issue"]; the record is a row of that store
    and its uuid is the non-empty segment between the first and the second
    delimiter of the input. *)
Theorem resolved_request_matches_identifier requestId st :
  (forall r,
     findRequestByRequestId requestId st = Some (VerifyRequest r) ->
     before ":" requestId = "verify"
     /\ In r (verifyRequestsRepository st)
     /\ CredentialVerifyRequest.uuid r <> ""
     /\ exists rest,
          after ":" requestId = Some rest
          /\ CredentialVerifyRequest.uuid r = before ":" rest)
  /\ (forall r,
        findRequestByRequestId requestId st = Some (IssueRequest r) ->
        before ":" requestId = "issue"
        /\ In r (issueRequestsRepository st)
        /\ CredentialIssueRequest.uuid r <> ""
        /\ exists rest,
             after ":" requestId = Some rest
             /\ CredentialIssueRequest.uuid r = before ":" rest).
Proof.
  rewrite findRequestByRequestId_segments.
  destruct (after ":" requestId) as [rest|]; [|split; discriminate].
  unfold lookupByTag.
  destruct (String.eqb (before ":" rest) "") eqn:Hne; [split; discriminate|].
  apply String.eqb_neq in Hne.
  destruct (String.eqb (before ":" requestId) CredentialVerifyRequest.requestType)
    eqn:Hv.
  - apply String.eqb_eq in Hv. split; intros r H.
    + unfold findVerifyRequestByIdentifier in H.
      destruct (findOne _ _) as [r'|] eqn:Hfind; [|discriminate].
      inversion H; subst r'. apply findOne_some in Hfind as [Hin Huuid].
      apply String.eqb_eq in Huuid. rewrite Huuid.
      repeat split; auto. now exists rest.
    + destruct (findVerifyRequestByIdentifier _ _); discriminate.
  - destruct (String.eqb (before ":" requestId) CredentialIssueRequest.requestType)
      eqn:Hi; [|split; discriminate].
    apply String.eqb_eq in Hi. split; intros r H.
    + destruct (findIssueRequestByIdentifier _ _); discriminate.
    + unfold findIssueRequestByIdentifier in H.
      destruct (findOne _ _) as [r'|] eqn:Hfind; [|discriminate].
      inversion H; subst r'. apply findOne_some in Hfind as [Hin Huuid].
      apply String.eqb_eq in Huuid. rewrite Huuid.
      repeat split; auto. now exists rest.
Qed.

Lemma resolved_request_matches_identifier_witness :
  before ":" ("verify:" ++ Fixture.u1 ++ ":extra") = "verify"
  /\ In Fixture.verifyRow1 (verifyRequestsRepository Fixture.st1)
  /\ CredentialVerifyRequest.uuid Fixture.verifyRow1 <> ""
  /\ exists rest,
       after ":" ("verify:" ++ Fixture.u1 ++ ":extra") = Some rest
       /\ CredentialVerifyRequest.uuid Fixture.verifyRow1 = before ":" rest.
Proof.
  apply (proj1 (resolved_request_matches_identifier
                  ("verify:" ++ Fixture.u1 ++ ":extra") Fixture.st1)).
  reflexivity.
Defined.

(** X11: the tag-specific lookups refuse every other tag, whatever the
    stores hold: [findVerifyRequestByRequestId] returns null unless the tag
    segment is ["verify"], [findIssueRequestByRequestId] unless it is
    ["issue"]; and a record they return is a row of their store whose uuid
    is the second segment of the input. *)
Theorem tagged_lookups_refuse_other_tags requestId st :
  (before ":" requestId <> "verify" ->
   findVerifyRequestByRequestId requestId st = None)
  /\ (before ":" requestId <> "issue" ->
      findIssueRequestByRequestId requestId st = None)
  /\ (forall r,
        findVerifyRequestByRequestId requestId st = Some r ->
        In r (verifyRequestsRepository st)
        /\ Some (CredentialVerifyRequest.uuid r)
           = option_map (before ":") (after ":" requestId))
  /\ (forall r,
        findIssueRequestByRequestId requestId st = Some r ->
        In r (issueRequestsRepository st)
        /\ Some (CredentialIssueRequest.uuid r)
           = option_map (before ":") (after ":" requestId)).
Proof.
  rewrite findVerifyRequestByRequestId_segments,
    findIssueRequestByRequestId_segments.
  destruct (after ":" requestId) as [rest|];
    [|repeat split; try reflexivity; discriminate].
  split; [|split; [|split]].
  - intros Htag. apply String.eqb_neq in Htag.
    unfold CredentialVerifyRequest.requestType. now rewrite Htag.
  - intros Htag. apply String.eqb_neq in Htag.
    unfold CredentialIssueRequest.requestType. now rewrite Htag.
  - intros r. destruct (_ && _); [|discriminate].
    unfold findVerifyRequestByIdentifier. intros Hfind.
    apply findOne_some in Hfind as [Hin Huuid].
    apply String.eqb_eq in Huuid. cbn [option_map]. now rewrite Huuid.
  - intros r. destruct (_ && _); [|discriminate].
    unfold findIssueRequestByIdentifier. intros Hfind.
    apply findOne_some in Hfind as [Hin Huuid].
    apply String.eqb_eq in Huuid. cbn [option_map]. now rewrite Huuid.
Qed.

Lemma tagged_lookups_refuse_other_tags_witness :
  findVerifyRequestByRequestId ("issue:" ++ Fixture.u1) Fixture.st1 = None.
Proof.
  apply (proj1 (tagged_lookups_refuse_other_tags
                  ("issue:" ++ Fixture.u1) Fixture.st1)).
  discriminate.
Defined.

(** X12: for a uuid that is not empty and free of the delimiter,
    ["verify:" ++ uuid] is not found exactly when no verify request has
    that uuid, and ["issue:" ++ uuid] exactly when no issue request has
    it. *)
Theorem identifier_not_found_iff_absent u st :
  addressable u = true ->
  (findRequestByRequestId ("verify:" ++ u) st = None
   <-> forall r, In r (verifyRequestsRepository st) ->
                 CredentialVerifyRequest.uuid r <> u)
  /\ (findRequestByRequestId ("issue:" ++ u) st = None
      <-> forall r, In r (issueRequestsRepository st) ->
                    CredentialIssueRequest.uuid r <> u).
Proof.
  intros Hu. apply addressable_spec in Hu as [Hne Hcolon].
  apply String.eqb_neq in Hne.
  change ("verify:" ++ u) with ("verify" ++ ":" ++ u).
  change ("issue:" ++ u) with ("issue" ++ ":" ++ u).
  rewrite !findRequestByRequestId_tagged by auto.
  unfold lookupByTag. rewrite Hne.
  change (String.eqb "verify" CredentialVerifyRequest.requestType) with true.
  change (String.eqb "issue" CredentialVerifyRequest.requestType) with false.
  change (String.eqb "issue" CredentialIssueRequest.requestType) with true.
  cbv iota.
  unfold findVerifyRequestByIdentifier, findIssueRequestByIdentifier.
  split; split.
  - destruct (findOne _ _) eqn:Hfind; [discriminate|]. intros _ r Hin.
    apply String.eqb_neq. now apply (findOne_none_inv _ _ Hfind).
  - intros Habsent. rewrite findOne_none; [reflexivity|].
    intros r Hin. apply String.eqb_neq. now apply Habsent.
  - destruct (findOne _ _) eqn:Hfind; [discriminate|]. intros _ r Hin.
    apply String.eqb_neq. now apply (findOne_none_inv _ _ Hfind).
  - intros Habsent. rewrite findOne_none; [reflexivity|].
    intros r Hin. apply String.eqb_neq. now apply Habsent.
Qed.

Lemma identifier_not_found_iff_absent_witness :
  findRequestByRequestId ("issue:" ++ Fixture.u1) Fixture.st1 = None
  <-> forall r, In r (issueRequestsRepository Fixture.st1) ->
                CredentialIssueRequest.uuid r <> Fixture.u1.
Proof.
  apply (proj2 (identifier_not_found_iff_absent Fixture.u1 Fixture.st1
                  eq_refl)).
Defined.

(** ** Every stored record can be addressed *)

(** X13: in a store whose uuids are pairwise distinct, every record with a
    non-empty, delimiter-free uuid is what the lookups return for the
    record's own [requestId]: the combined lookup and the lookup of its
    kind; the lookup of the other kind returns null. *)
Theorem stored_request_resolves_by_its_requestId st :
  (uniqueVerifyUuids st ->
   forall r,
     In r (verifyRequestsRepository st) ->
     addressable (CredentialVerifyRequest.uuid r) = true ->
     findRequestByRequestId (CredentialVerifyRequest.requestId r) st
     = Some (VerifyRequest r)
     /\ findVerifyRequestByRequestId (CredentialVerifyRequest.requestId r) st
        = Some r
     /\ findIssueRequestByRequestId (CredentialVerifyRequest.requestId r) st
        = None)
  /\ (uniqueIssueUuids st ->
      forall r,
        In r (issueRequestsRepository st) ->
        addressable (CredentialIssueRequest.uuid r) = true ->
        findRequestByRequestId (CredentialIssueRequest.requestId r) st
        = Some (IssueRequest r)
        /\ findIssueRequestByRequestId (CredentialIssueRequest.requestId r) st
           = Some r
        /\ findVerifyRequestByRequestId (CredentialIssueRequest.requestId r) st
           = None).
Proof.
  split; intros Hunique r Hin Hu;
    apply addressable_spec in Hu as [Hne Hcolon];
    apply String.eqb_neq in Hne.
  - unfold CredentialVerifyRequest.requestId.
    rewrite findRequestByRequestId_segments,
      findVerifyRequestByRequestId_segments,
      findIssueRequestByRequestId_segments.
    change (CredentialVerifyRequest.requestType ++ ":"
            ++ CredentialVerifyRequest.uuid r)
      with ("verify" ++ String ":" (CredentialVerifyRequest.uuid r)).
    rewrite after_app, before_app by reflexivity.
    rewrite before_no_sep by exact Hcolon.
    unfold lookupByTag. rewrite Hne. cbn.
    unfold findVerifyRequestByIdentifier.
    rewrite (findOne_unique_key CredentialVerifyRequest.uuid _ r Hunique Hin).
    repeat split.
  - unfold CredentialIssueRequest.requestId.
    rewrite findRequestByRequestId_segments,
      findVerifyRequestByRequestId_segments,
      findIssueRequestByRequestId_segments.
    change (CredentialIssueRequest.requestType ++ ":"
            ++ CredentialIssueRequest.uuid r)
      with ("issue" ++ String ":" (CredentialIssueRequest.uuid r)).
    rewrite after_app, before_app by reflexivity.
    rewrite before_no_sep by exact Hcolon.
    unfold lookupByTag. rewrite Hne. cbn.
    unfold findIssueRequestByIdentifier.
    rewrite (findOne_unique_key CredentialIssueRequest.uuid _ r Hunique Hin).
    repeat split.
Qed.

Lemma stored_request_resolves_by_its_requestId_witness :
  findRequestByRequestId (CredentialVerifyRequest.requestId Fixture.verifyRow1)
    Fixture.st1
  = Some (VerifyRequest Fixture.verifyRow1)
  /\ findVerifyRequestByRequestId
       (CredentialVerifyRequest.requestId Fixture.verifyRow1) Fixture.st1
     = Some Fixture.verifyRow1
  /\ findIssueRequestByRequestId
       (CredentialVerifyRequest.requestId Fixture.verifyRow1) Fixture.st1
     = None.
Proof.
  apply (proj1 (stored_request_resolves_by_its_requestId Fixture.st1)).
  - unfold uniqueVerifyUuids. simpl. constructor; [intros []|constructor].
  - simpl. now left.
  - reflexivity.
Defined.

(** X14: when the database generates a uuid that no record of the store
    has yet, an accepting operation keeps the uuids of both stores pairwise
    distinct, whether it succeeds or fails. *)
Theorem fresh_uuid_keeps_uuids_unique now u jwt st :
  uniqueVerifyUuids st ->
  uniqueIssueUuids st ->
  (forall o st',
     (forall v, In v (verifyRequestsRepository st) ->
                CredentialVerifyRequest.uuid v <> u) ->
     decodeVerifyRequestToken now u jwt st = (o, st') ->
     uniqueVerifyUuids st' /\ uniqueIssueUuids st')
  /\ (forall o st',
        (forall i, In i (issueRequestsRepository st) ->
                   CredentialIssueRequest.uuid i <> u) ->
        decodeIssueRequestToken now u jwt st = (o, st') ->
        uniqueVerifyUuids st' /\ uniqueIssueUuids st').
Proof.
  unfold uniqueVerifyUuids, uniqueIssueUuids. intros Hv Hi.
  assert (Hsnoc : forall (keys : list string) k,
            NoDup keys -> ~ In k keys -> NoDup (keys ++ [k])).
  { intros keys k Hnodup Hnotin.
    apply NoDup_app; [exact Hnodup | constructor; [intros []|constructor] |].
    intros x Hx [<- | []]. contradiction. }
  split; intros o st' Hfresh Hrun.
  - pose proof (decodeVerifyRequestToken_appends _ _ _ _ _ _ Hrun)
      as (_ & _ & -> & more & -> & Hmore).
    split; [|exact Hi].
    destruct o as [r | e]; subst more.
    + apply decodeVerifyRequestToken_returned in Hrun
        as (d & t & _ & _ & Hr & _).
      rewrite map_app. cbn [map]. apply Hsnoc; [exact Hv|].
      rewrite Hr. cbn. intros Hin. apply in_map_iff in Hin as (v & Huuid & Hin).
      now apply (Hfresh v).
    + now rewrite app_nil_r.
  - pose proof (decodeIssueRequestToken_appends _ _ _ _ _ _ Hrun)
      as (_ & _ & -> & more & -> & Hmore).
    split; [exact Hv|].
    destruct o as [r | e]; subst more.
    + apply decodeIssueRequestToken_returned in Hrun
        as (d & t & _ & _ & Hr & _).
      rewrite map_app. cbn [map]. apply Hsnoc; [exact Hi|].
      rewrite Hr. cbn. intros Hin. apply in_map_iff in Hin as (v & Huuid & Hin).
      now apply (Hfresh v).
    + now rewrite app_nil_r.
Qed.

Lemma fresh_uuid_keeps_uuids_unique_witness :
  uniqueVerifyUuids
    (snd (decodeVerifyRequestToken 1000 "9b2c1d3e-0f4a-4b5c-8d6e-7f8091a2b3c4"
            (signedBy Fixture.orgB (Fixture.claims "org-b" 800)) Fixture.st1))
  /\ uniqueIssueUuids
       (snd (decodeVerifyRequestToken 1000
               "9b2c1d3e-0f4a-4b5c-8d6e-7f8091a2b3c4"
               (signedBy Fixture.orgB (Fixture.claims "org-b" 800))
               Fixture.st1)).
Proof.
  assert (Hv : uniqueVerifyUuids Fixture.st1).
  { unfold uniqueVerifyUuids. simpl. constructor; [intros []|constructor]. }
  assert (Hi : uniqueIssueUuids Fixture.st1).
  { unfold uniqueIssueUuids. simpl. constructor. }
  apply (proj1 (fresh_uuid_keeps_uuids_unique 1000
                  "9b2c1d3e-0f4a-4b5c-8d6e-7f8091a2b3c4"
                  (signedBy Fixture.orgB (Fixture.claims "org-b" 800))
                  Fixture.st1 Hv Hi)
           (fst (decodeVerifyRequestToken 1000
                   "9b2c1d3e-0f4a-4b5c-8d6e-7f8091a2b3c4"
                   (signedBy Fixture.orgB (Fixture.claims "org-b" 800))
                   Fixture.st1))).
  - simpl. intros v [<- | []]. discriminate.
  - vm_compute; reflexivity.
Defined.

(** ** Referential consistency of the stores *)

(** X15: if, in both request stores, the type of every record is owned by
    the record's requestor, the requestor is a known organization and the
    type a known credential type, then the same holds after any call of an
    accepting operation, whether it succeeds or fails. *)
Theorem accepting_operations_keep_stores_consistent now u jwt st :
  storesConsistent st ->
  (forall o st',
     decodeVerifyRequestToken now u jwt st = (o, st') -> storesConsistent st')
  /\ (forall o st',
        decodeIssueRequestToken now u jwt st = (o, st') -> storesConsistent st').
Proof.
  unfold storesConsistent. intros [Hv Hi].
  split; intros o st' Hrun.
  - pose proof (decodeVerifyRequestToken_appends _ _ _ _ _ _ Hrun)
      as (Horgs & Htypes & Hissue & more & Hverify & Hmore).
    assert (Hframe : forall r, consistentVerifyRequest st r ->
                               consistentVerifyRequest st' r).
    { unfold consistentVerifyRequest. now rewrite Horgs, Htypes. }
    split.
    + rewrite Hverify. apply Forall_app. split.
      * eapply Forall_impl; [exact Hframe | exact Hv].
      * destruct o as [r | e]; subst more; constructor; [|constructor].
        apply Hframe.
        apply decodeVerifyRequestToken_returned in Hrun
          as (d & t & Hjwt & Htype & -> & _).
        apply find_byOwnerAndName in Htype as (Howner & _ & Hin).
        apply decodeAndVerifyJwt_returned in Hjwt
          as (_ & iss & _ & _ & _ & Horg & _).
        apply find_byUuid in Horg as (_ & Horg).
        unfold consistentVerifyRequest. cbn. auto.
    + rewrite Hissue. eapply Forall_impl; [|exact Hi].
      unfold consistentIssueRequest. now rewrite Horgs, Htypes.
  - pose proof (decodeIssueRequestToken_appends _ _ _ _ _ _ Hrun)
      as (Horgs & Htypes & Hverify & more & Hissue & Hmore).
    assert (Hframe : forall r, consistentIssueRequest st r ->
                               consistentIssueRequest st' r).
    { unfold consistentIssueRequest. now rewrite Horgs, Htypes. }
    split.
    + rewrite Hverify. eapply Forall_impl; [|exact Hv].
      unfold consistentVerifyRequest. now rewrite Horgs, Htypes.
    + rewrite Hissue. apply Forall_app. split.
      * eapply Forall_impl; [exact Hframe | exact Hi].
      * destruct o as [r | e]; subst more; constructor; [|constructor].
        apply Hframe.
        apply decodeIssueRequestToken_returned in Hrun
          as (d & t & Hjwt & Htype & -> & _).
        apply find_byOwnerAndName in Htype as (Howner & _ & Hin).
        apply decodeAndVerifyJwt_returned in Hjwt
          as (_ & iss & _ & _ & _ & Horg & _).
        apply find_byUuid in Horg as (_ & Horg).
        unfold consistentIssueRequest. cbn. auto.
Qed.

Lemma accepting_operations_keep_stores_consistent_witness :
  storesConsistent
    (snd (decodeIssueRequestToken 1000 "9b2c1d3e-0f4a-4b5c-8d6e-7f8091a2b3c4"
            (signedBy Fixture.orgC (Fixture.claims "org-c" 800)) Fixture.st1)).
Proof.
  assert (H1 : storesConsistent Fixture.st1).
  { split; [|constructor]. constructor; [|constructor].
    unfold consistentVerifyRequest. simpl. auto. }
  apply (proj2 (accepting_operations_keep_stores_consistent 1000
                  "9b2c1d3e-0f4a-4b5c-8d6e-7f8091a2b3c4"
                  (signedBy Fixture.orgC (Fixture.claims "org-c" 800))
                  Fixture.st1 H1)
           (fst (decodeIssueRequestToken 1000
                   "9b2c1d3e-0f4a-4b5c-8d6e-7f8091a2b3c4"
                   (signedBy Fixture.orgC (Fixture.claims "org-c" 800))
                   Fixture.st1))).
  vm_compute; reflexivity.
Defined.

(** ** Issue requests and their identifiers *)

(** X16: an issue request that [decodeIssueRequestToken] created with the
    generated uuid [u] (non-empty, free of the delimiter, not yet used in
    the issue store) is what [findRequestByRequestId] and
    [findIssueRequestByRequestId] return for ["issue:" ++ u]; and
    ["verify:" ++ u] is not found when no verify request has uuid [u]. *)
Theorem created_issue_request_resolves now u jwt st r st' :
  decodeIssueRequestToken now u jwt st = (Returned r, st') ->
  addressable u = true ->
  (forall i, In i (issueRequestsRepository st) ->
             CredentialIssueRequest.uuid i <> u) ->
  CredentialIssueRequest.requestId r = "issue:" ++ u
  /\ findRequestByRequestId ("issue:" ++ u) st' = Some (IssueRequest r)
  /\ findIssueRequestByRequestId ("issue:" ++ u) st' = Some r
  /\ ((forall v, In v (verifyRequestsRepository st') ->
                 CredentialVerifyRequest.uuid v <> u) ->
      findRequestByRequestId ("verify:" ++ u) st' = None).
Proof.
  intros Hrun Hu Hfresh.
  apply addressable_spec in Hu as [Hne Hcolon].
  apply decodeIssueRequestToken_returned in Hrun as (d & t & _ & _ & Hr & Hst).
  assert (Huuid : CredentialIssueRequest.uuid r = u) by now rewrite Hr.
  assert (Hnonempty : String.eqb u "" = false) by now apply String.eqb_neq.
  assert (Hfind :
    findIssueRequestByIdentifier u st' = Some r).
  { unfold findIssueRequestByIdentifier. rewrite Hst.
    cbn [issueRequestsRepository].
    apply findOne_last.
    - apply findOne_none. intros i Hi. apply String.eqb_neq. now apply Hfresh.
    - rewrite Huuid. apply String.eqb_refl. }
  split.
  { unfold CredentialIssueRequest.requestId. now rewrite Huuid. }
  split; [|split].
  - change ("issue:" ++ u) with ("issue" ++ ":" ++ u).
    rewrite findRequestByRequestId_tagged by auto.
    unfold lookupByTag. rewrite Hnonempty, Hfind. reflexivity.
  - rewrite findIssueRequestByRequestId_segments.
    change ("issue:" ++ u) with ("issue" ++ String ":" u).
    rewrite after_app, before_app by reflexivity.
    rewrite before_no_sep by exact Hcolon.
    rewrite Hnonempty. exact Hfind.
  - intros Hverify.
    change ("verify:" ++ u) with ("verify" ++ ":" ++ u).
    rewrite findRequestByRequestId_tagged by auto.
    unfold lookupByTag. rewrite Hnonempty.
    change (String.eqb "verify" CredentialVerifyRequest.requestType) with true.
    cbv iota. unfold findVerifyRequestByIdentifier.
    rewrite findOne_none; [reflexivity|].
    intros v Hv. apply String.eqb_neq. now apply Hverify.
Qed.

Lemma created_issue_request_resolves_witness :
  findIssueRequestByRequestId ("issue:" ++ Fixture.u1)
    (snd (decodeIssueRequestToken 1000 Fixture.u1
            (signedBy Fixture.orgB (Fixture.claims "org-b" 800)) Fixture.st0))
  = Some (CredentialIssueRequest.mk Fixture.u1 Fixture.orgB Fixture.passportB
            "https://example.com/cb?token="
            (Some (JObject [("name", JString "Alice")]))).
Proof.
  apply (created_issue_request_resolves 1000 Fixture.u1
           (signedBy Fixture.orgB (Fixture.claims "org-b" 800)) Fixture.st0
           (CredentialIssueRequest.mk Fixture.u1 Fixture.orgB Fixture.passportB
              "https://example.com/cb?token="
              (Some (JObject [("name", JString "Alice")])))
           (snd (decodeIssueRequestToken 1000 Fixture.u1
                   (signedBy Fixture.orgB (Fixture.claims "org-b" 800))
                   Fixture.st0))).
  - vm_compute; reflexivity.
  - reflexivity.
  - simpl. intros i [].
Defined.

(** ** From acceptance to notification *)

(** X17: for a verify request that [decodeVerifyRequestToken] created with
    a fresh, addressable uuid, and a connector whose disclosure step returns
    data, the disclosure endpoint sends one notification of status
    [success]; the [requestId] it is addressed to resolves, through
    [findVerifyRequestByRequestId], to the created record, and its redirect
    target is the callbackUrl of the signed claims followed by the outcome
    token. *)
Theorem notification_addresses_the_accepted_request
    (encode : CredentialVerifyRequest.t -> ResponseStatus -> string -> Json
              -> string)
    now u jwt st r st' connector body data gateway :
  decodeVerifyRequestToken now u jwt st = (Returned r, st') ->
  addressable u = true ->
  (forall v, In v (verifyRequestsRepository st) ->
             CredentialVerifyRequest.uuid v <> u) ->
  ConnectorService.handleVerifyCredentialDisclosure connector r body
  = Returned data ->
  exists n claims,
    handleCredentialVerifyDisclosure encode connector r body gateway
    = (Returned tt, (gateway ++ [n])%list)
    /\ status n = success
    /\ findVerifyRequestByRequestId (toRequestId n) st' = Some r
    /\ jwt = signedBy (CredentialVerifyRequest.requestor r) claims
    /\ redirectUrl n
       = Payload.callbackUrl claims
         ++ encode r success (ConnectorService.name connector) data.
Proof.
  intros Hrun Hu Hfresh Hstep.
  apply addressable_spec in Hu as [Hne Hcolon].
  apply decodeVerifyRequestToken_returned in Hrun
    as (d & t & Hjwt & _ & Hr & Hst).
  apply decodeAndVerifyJwt_returned in Hjwt
    as (_ & iss & Hdec & _ & _ & _ & Hverify).
  apply decode_object in Hdec as [key ->].
  apply verify_returned in Hverify as (_ & -> & _).
  eexists. exists (request d).
  unfold handleCredentialVerifyDisclosure, sendRedirectResponse.
  rewrite Hstep. split; [reflexivity|]. cbn [status toRequestId redirectUrl].
  split; [reflexivity|]. split; [|split].
  - unfold CredentialVerifyRequest.requestId.
    rewrite findVerifyRequestByRequestId_segments.
    change (CredentialVerifyRequest.requestType ++ ":"
            ++ CredentialVerifyRequest.uuid r)
      with ("verify" ++ String ":" (CredentialVerifyRequest.uuid r)).
    rewrite after_app, before_app by reflexivity.
    rewrite Hr. cbn [CredentialVerifyRequest.uuid].
    rewrite before_no_sep by exact Hcolon.
    apply String.eqb_neq in Hne. rewrite Hne. cbn.
    unfold findVerifyRequestByIdentifier. rewrite Hst.
    cbn [verifyRequestsRepository]. rewrite <- Hr.
    apply findOne_last.
    + apply findOne_none. intros v Hv. apply String.eqb_neq. now apply Hfresh.
    + rewrite Hr. cbn. apply String.eqb_refl.
  - rewrite Hr. reflexivity.
  - rewrite Hr. reflexivity.
Qed.

Lemma notification_addresses_the_accepted_request_witness :
  exists n claims,
    handleCredentialVerifyDisclosure Fixture.encode Fixture.demoConnector
      Fixture.verifyRow1 JNull []
    = (Returned tt, ([] ++ [n])%list)
    /\ status n = success
    /\ findVerifyRequestByRequestId (toRequestId n) Fixture.st1
       = Some Fixture.verifyRow1
    /\ signedBy Fixture.orgB (Fixture.claims "org-b" 800)
       = signedBy (CredentialVerifyRequest.requestor Fixture.verifyRow1) claims
    /\ redirectUrl n
       = Payload.callbackUrl claims
         ++ Fixture.encode Fixture.verifyRow1 success
              (ConnectorService.name Fixture.demoConnector)
              (JObject [("name", JString "Alice")]).
Proof.
  apply (notification_addresses_the_accepted_request Fixture.encode 1000
           Fixture.u1 (signedBy Fixture.orgB (Fixture.claims "org-b" 800))
           Fixture.st0 Fixture.verifyRow1 Fixture.st1 Fixture.demoConnector
           JNull (JObject [("name", JString "Alice")]) []).
  - vm_compute; reflexivity.
  - reflexivity.
  - simpl. intros v [].
  - reflexivity.
Defined.

(** ** The split of a composite identifier *)

Lemma split_no_separator sep s : occurs sep s = false -> split sep s = [s].
Proof.
  induction s as [|c rest IH]; simpl; [reflexivity|].
  intros H. apply orb_false_iff in H as [Hc Hrest].
  rewrite Hc, IH; auto.
Qed.

Lemma split_at_separator sep tag rest :
  occurs sep tag = false ->
  split sep (tag ++ String sep rest) = tag :: split sep rest.
Proof.
  induction tag as [|c tag IH]; simpl.
  - intros _. now rewrite Ascii.eqb_refl.
  - intros H. apply orb_false_iff in H as [Hc Htag].
    rewrite Hc, IH; auto.
Qed.

(** X18: [requestId.split(':')] takes a composite identifier apart into the
    parts it was put together from: for a tag and a uuid free of the
    delimiter, ["<tag>:<uuid>"] splits into exactly the tag and the uuid, and
    a text without delimiter into itself alone (so its second segment is
    undefined); in particular the [requestId] of a record splits into its
    kind and its uuid. *)
Theorem split_recovers_tag_and_uuid tag uuid :
  occurs ":" tag = false ->
  occurs ":" uuid = false ->
  split ":" (tag ++ ":" ++ uuid) = [tag; uuid]
  /\ split ":" tag = [tag]
  /\ nth_error (split ":" tag) 1 = None
  /\ (forall r, CredentialVerifyRequest.uuid r = uuid ->
                split ":" (CredentialVerifyRequest.requestId r)
                = [CredentialVerifyRequest.requestType; uuid])
  /\ (forall r, CredentialIssueRequest.uuid r = uuid ->
                split ":" (CredentialIssueRequest.requestId r)
                = [CredentialIssueRequest.requestType; uuid]).
Proof.
  intros Htag Huuid.
  assert (Hparts : forall t, occurs ":" t = false ->
                             split ":" (t ++ ":" ++ uuid) = [t; uuid]).
  { intros t Ht. change (t ++ ":" ++ uuid) with (t ++ String ":" uuid).
    rewrite split_at_separator by exact Ht.
    now rewrite split_no_separator by exact Huuid. }
  split; [now apply Hparts|].
  rewrite split_no_separator by exact Htag.
  split; [reflexivity|]. split; [reflexivity|].
  split; intros r <-.
  - unfold CredentialVerifyRequest.requestId. now apply Hparts.
  - unfold CredentialIssueRequest.requestId. now apply Hparts.
Qed.

Lemma split_recovers_tag_and_uuid_witness :
  split ":" ("verify" ++ ":" ++ Fixture.u1) = ["verify"; Fixture.u1].
Proof.
  apply (split_recovers_tag_and_uuid "verify" Fixture.u1); reflexivity.
Defined.
